(** * geofiltering-thruster: the country filter and the handler chain

    A shallow embedding of [internal/geoip_middleware.go] and of
    [NewHandler], together with the parts of Go's [net], [strings] and
    [net/http] packages that the two files call. *)

From Stdlib Require Import NArith ZArith Ascii String List Bool Lia.
From Stdlib Require Import Init.Byte.
From stdpp Require Import base decidable option list gmap strings.

Import ListNotations.
Local Open Scope string_scope.
Local Open Scope list_scope.

(* ===================================================================== *)
(** * Go's [net] package: addresses as byte slices                        *)
(* ===================================================================== *)

Module Net.

(** [type IP []byte]; the nil slice is the empty list. *)
Definition IP : Type := list byte.

Definition IPv4len : nat := 4.
Definition IPv6len : nat := 16.

(** [ip[i]].  Every use below sits behind a length test of the slice,
    as in the source, so the default is never returned. *)
Definition idx (ip : IP) (i : nat) : N := Byte.to_N (nth i ip x00).

(** [ip[lo:hi]] *)
Definition slice (ip : IP) (lo hi : nat) : IP := firstn (hi - lo) (skipn lo ip).

(** [bytealg.Equal] *)
Fixpoint bytes_Equal (a b : IP) : bool :=
  match a, b with
  | [], [] => true
  | x :: a', y :: b' => Byte.eqb x y && bytes_Equal a' b'
  | _, _ => false
  end.

Definition isZeros (p : IP) : bool := forallb (fun b => N.eqb (Byte.to_N b) 0) p.

Definition v4InV6Prefix : IP :=
  [x00; x00; x00; x00; x00; x00; x00; x00; x00; x00; xff; xff].

(** [net.IPv4(a, b, c, d)]: the 16-byte form of an IPv4 address. *)
Definition IPv4 (a b c d : byte) : IP := v4InV6Prefix ++ [a; b; c; d].

Definition IPv6loopback : IP :=
  [x00; x00; x00; x00; x00; x00; x00; x00; x00; x00; x00; x00; x00; x00; x00; x01].

(** [func (ip IP) To4() IP]; [None] is the nil result. *)
Definition To4 (ip : IP) : option IP :=
  if Nat.eqb (length ip) IPv4len then Some ip
  else if Nat.eqb (length ip) IPv6len
          && isZeros (slice ip 0 10)
          && N.eqb (idx ip 10) 0xff
          && N.eqb (idx ip 11) 0xff
       then Some (slice ip 12 16)
       else None.

(** [func (ip IP) Equal(x IP) bool] *)
Definition Equal (ip x : IP) : bool :=
  if Nat.eqb (length ip) (length x) then bytes_Equal ip x
  else if Nat.eqb (length ip) IPv4len && Nat.eqb (length x) IPv6len
       then bytes_Equal (slice x 0 12) v4InV6Prefix && bytes_Equal ip (skipn 12 x)
  else if Nat.eqb (length ip) IPv6len && Nat.eqb (length x) IPv4len
       then bytes_Equal (slice ip 0 12) v4InV6Prefix && bytes_Equal (skipn 12 ip) x
  else false.

(** [func (ip IP) IsLoopback() bool] *)
Definition IsLoopback (ip : IP) : bool :=
  match To4 ip with
  | Some ip4 => N.eqb (idx ip4 0) 127
  | None => Equal ip IPv6loopback
  end.

End Net.


(* ===================================================================== *)
(** * Go strings: byte sequences                                          *)
(* ===================================================================== *)

Module GoString.

(** [len(s)] *)
Definition len (s : string) : nat := String.length s.

(** [s[lo:hi]] and [s[lo:]] *)
Definition slice (s : string) (lo hi : nat) : string := substring lo (hi - lo) s.
Definition from (s : string) (lo : nat) : string := substring lo (len s - lo) s.

(** [bytealg.IndexByteString]; [None] is the result -1. *)
Fixpoint IndexByteString (s : string) (c : ascii) : option nat :=
  match s with
  | EmptyString => None
  | String x s' =>
      if Ascii.eqb x c then Some 0
      else match IndexByteString s' c with
           | Some i => Some (S i)
           | None => None
           end
  end.

(** [bytealg.LastIndexByteString]; [None] is the result -1. *)
Fixpoint LastIndexByteString (s : string) (c : ascii) : option nat :=
  match s with
  | EmptyString => None
  | String x s' =>
      match LastIndexByteString s' c with
      | Some i => Some (S i)
      | None => if Ascii.eqb x c then Some 0 else None
      end
  end.

Definition contains (s : string) (c : ascii) : bool :=
  match IndexByteString s c with Some _ => true | None => false end.

Section EqualFold.

(** The rune loop of [strings.EqualFold] behind its label
    [hasUnicode], entered with the two remaining suffixes once a byte
    of either string is not ASCII.  It decodes UTF-8 and walks the
    orbit tables of [unicode.SimpleFold]; those tables are not part
    of this development, so the loop is a parameter. *)
Variable foldRunes : string -> string -> bool.

Definition RuneSelf : N := 0x80.

(** [strings.EqualFold]: the byte loop of the ASCII fast path.  The
    recursion walks both strings in step, so the closing test
    [len(s) == len(t)] is made on the two suffixes left over. *)
Fixpoint EqualFold (s t : string) : bool :=
  match s, t with
  | String sr s', String tr t' =>
      let a := N_of_ascii sr in
      let b := N_of_ascii tr in
      if N.leb RuneSelf (N.lor a b) then foldRunes s t
      else if N.eqb b a then EqualFold s' t'
      else
        let lo := N.min a b in
        let hi := N.max a b in
        if N.leb 65 lo && N.leb lo 90 && N.eqb hi (lo + 97 - 65)
        then EqualFold s' t'
        else false
  | _, _ => Nat.eqb (len s) (len t)
  end.

End EqualFold.

End GoString.

Module NetAddr.

Import GoString.

(** [net.SplitHostPort]; [None] is the [*AddrError] result, whose text
    the caller never reads. *)
Definition SplitHostPort (hostport : string) : option (string * string) :=
  match LastIndexByteString hostport ":" with
  | None => None                                  (* missing port *)
  | Some i =>
      let parsed :=
        if match String.get 0 hostport with
           | Some c => Ascii.eqb c "["
           | None => false
           end
        then
          match IndexByteString hostport "]" with
          | None => None                          (* missing ']' *)
          | Some e =>
              if Nat.eqb (e + 1) (len hostport) then None      (* missing port *)
              else if Nat.eqb (e + 1) i then Some (slice hostport 1 e, 1, e + 1)
              else None                           (* too many colons / missing port *)
          end
        else
          let host := slice hostport 0 i in
          if contains host ":" then None          (* too many colons *)
          else Some (host, 0, 0) in
      match parsed with
      | None => None
      | Some (host, j, k) =>
          if contains (from hostport j) "[" then None
          else if contains (from hostport k) "]" then None
          else Some (host, from hostport (i + 1))
      end
  end.

End NetAddr.

(* ===================================================================== *)
(** * Go's [net/http]: headers and requests                               *)
(* ===================================================================== *)

Module Http.

(** [type Header map[string][]string] *)
Abbreviation header := (gmap string (list string)).

Definition isLower (c : ascii) : bool := N.leb 97 (N_of_ascii c) && N.leb (N_of_ascii c) 122.
Definition isUpper (c : ascii) : bool := N.leb 65 (N_of_ascii c) && N.leb (N_of_ascii c) 90.
Definition isDigit (c : ascii) : bool := N.leb 48 (N_of_ascii c) && N.leb (N_of_ascii c) 57.

(** [textproto.validHeaderFieldByte]: the token characters of RFC 7230. *)
Definition validHeaderFieldByte (c : ascii) : bool :=
  isLower c || isUpper c || isDigit c || GoString.contains "!#$%&'*+-.^_`|~" c.

Definition toUpper (c : ascii) : ascii :=
  if isLower c then ascii_of_N (N_of_ascii c - 32) else c.
Definition toLower (c : ascii) : ascii :=
  if isUpper c then ascii_of_N (N_of_ascii c + 32) else c.

Fixpoint allValid (s : string) : bool :=
  match s with
  | EmptyString => true
  | String c s' => validHeaderFieldByte c && allValid s'
  end.

(** The rewriting loop of [textproto.canonicalMIMEHeaderKey]: upper
    case at the start and after a hyphen, lower case elsewhere. *)
Fixpoint canonicalCase (upper : bool) (s : string) : string :=
  match s with
  | EmptyString => EmptyString
  | String c s' =>
      String (if upper then toUpper c else toLower c)
             (canonicalCase (Ascii.eqb c "-") s')
  end.

(** [textproto.CanonicalMIMEHeaderKey]: a key holding a byte that is
    not a token character is returned as it is. *)
Definition CanonicalMIMEHeaderKey (s : string) : string :=
  if allValid s then canonicalCase true s else s.

(** [func (h Header) Get(key string) string] *)
Definition Get (h : header) (key : string) : string :=
  match h !! CanonicalMIMEHeaderKey key with
  | Some (v :: _) => v
  | _ => EmptyString
  end.

(** [func (h Header) Set(key, value string)] *)
Definition Set_ (h : header) (key value : string) : header :=
  <[CanonicalMIMEHeaderKey key := [value]]> h.

(** The fields of [http.Request] the filter reads or writes. *)
Record Request : Type := mkRequest {
  Header : header;
  RemoteAddr : string
}.

Definition StatusForbidden : Z := 403.

End Http.

(* ===================================================================== *)
(** * [isLocalOrInternalIP]                                               *)
(* ===================================================================== *)

(** [internal/geoip_middleware.go], lines 124-171.  The nil slice has
    length 0; an empty slice that is not nil fails every later test of
    the source as well. *)
Definition isLocalOrInternalIP (ip : Net.IP) : bool :=
  if Nat.eqb (length ip) 0 then false
  else if Net.IsLoopback ip then true
  else if Net.Equal ip Net.IPv6loopback then true
  else if match Net.To4 ip with
          | Some ipv4 =>
              if N.eqb (Net.idx ipv4 0) 10 then true
              else if N.eqb (Net.idx ipv4 0) 172
                      && N.leb 16 (Net.idx ipv4 1) && N.leb (Net.idx ipv4 1) 31 then true
              else if N.eqb (Net.idx ipv4 0) 192 && N.eqb (Net.idx ipv4 1) 168 then true
              else if N.eqb (Net.idx ipv4 0) 169 && N.eqb (Net.idx ipv4 1) 254 then true
              else false
          | None => false
          end then true
  else if Nat.eqb (length ip) 16 && N.eqb (N.land (Net.idx ip 0) 0xfe) 0xfc then true
  else if Nat.eqb (length ip) 16 && N.eqb (Net.idx ip 0) 0xfe
          && N.eqb (N.land (Net.idx ip 1) 0xc0) 0x80 then true
  else false.

(* ===================================================================== *)
(** * [GeoIPMiddleware]                                                   *)
(* ===================================================================== *)

(** What the method [Country] of a [geoip2.Reader] gives back: the record's
    [Country.IsoCode] with a nil error (the code is empty when the
    database has no entry for the address), or an error. *)
Inductive CountryResult : Type :=
| CountryOk (IsoCode : string)
| CountryErr (err : string).

(** An opened database, seen through its one method [Country].
    [NewHandler] builds the middleware only around a reader that was
    opened. *)
Definition Reader : Type := Net.IP -> CountryResult.

(** [*slog.Logger]; the only logger of the program is [slog.Default()]. *)
Inductive Logger : Type := slog_Default.

(** Values of the key-value pairs handed to a [slog] call. *)
Inductive Attr : Type :=
| AStr (s : string)
| AStrs (l : list string).

(** [type GeoIPMiddleware struct], over the type of [http.Handler]s. *)
Record GeoIPMiddleware (H : Type) : Type := mkGeoIPMiddleware {
  reader : Reader;
  logger : Logger;
  next : H;
  allowCountries : list string;
  blockCountries : list string
}.
Arguments mkGeoIPMiddleware {H}.
Arguments reader {H}.
Arguments logger {H}.
Arguments next {H}.
Arguments allowCountries {H}.
Arguments blockCountries {H}.

Definition NewGeoIPMiddleware {H : Type} (reader : Reader) (logger : Logger) (next : H)
    (allowCountries blockCountries : list string) : GeoIPMiddleware H :=
  {| reader := reader; logger := logger; next := next;
     allowCountries := allowCountries; blockCountries := blockCountries |}.

(** The effects of one call of [ServeHTTP], in the order they happen. *)
Inductive Event (H : Type) : Type :=
| ReaderCountry (ip : Net.IP)
    (** [m.reader.Country(ip)] *)
| LoggerInfo (l : Logger) (msg : string) (attrs : list (string * Attr))
    (** [m.logger.Info(msg, attrs...)] *)
| HttpError (msg : string) (code : Z)
    (** [http.Error(w, msg, code)] *)
| NextServeHTTP (h : H) (r : Http.Request).
    (** [m.next.ServeHTTP(w, r)], with the request as it is at the call *)
Arguments ReaderCountry {H}.
Arguments LoggerInfo {H}.
Arguments HttpError {H}.
Arguments NextServeHTTP {H}.

Section ServeHTTP.

Context {H : Type}.

(** [net.ParseIP]; [None] is the nil result.  The parser of textual
    addresses is outside this development. *)
Variable ParseIP : string -> option Net.IP.

(** The rune loop of [strings.EqualFold], see [GoString.EqualFold]. *)
Variable foldRunes : string -> string -> bool.

Definition EqualFold : string -> string -> bool := GoString.EqualFold foldRunes.

(** Lines 60-66: the loop that sets [allowed]. *)
Fixpoint allowedLoop (countryCode : string) (countries : list string) : bool :=
  match countries with
  | [] => false
  | allowedCountry :: rest =>
      if EqualFold countryCode allowedCountry then true
      else allowedLoop countryCode rest
  end.

(** Lines 75-82: the loop over the block list; [true] when an
    iteration logs, answers and returns. *)
Fixpoint blockedLoop (countryCode : string) (countries : list string) : bool :=
  match countries with
  | [] => false
  | blockedCountry :: rest =>
      if EqualFold countryCode blockedCountry then true
      else blockedLoop countryCode rest
  end.

(** [func (m *GeoIPMiddleware) ServeHTTP(w, r)], lines 31-93. *)
Definition ServeHTTP (m : GeoIPMiddleware H) (r : Http.Request) : list (Event H) :=
  let remoteAddr := Http.Get (Http.Header r) "X-Forwarded-For" in
  let remoteAddr := if String.eqb remoteAddr EmptyString then Http.RemoteAddr r else remoteAddr in
  let host := match NetAddr.SplitHostPort remoteAddr with
              | Some (host, _) => host
              | None => remoteAddr
              end in
  match ParseIP host with
  | Some ip =>
      if isLocalOrInternalIP ip then [NextServeHTTP (next m) r]
      else
        ReaderCountry ip ::
        match reader m ip with
        | CountryOk countryCode =>
            let pass :=
              let r := if negb (String.eqb countryCode EmptyString)
                       then Http.mkRequest
                              (Http.Set_ (Http.Header r) "X-GeoIP-Country" countryCode)
                              (Http.RemoteAddr r)
                       else r in
              [NextServeHTTP (next m) r] in
            if Nat.ltb 0 (length (allowCountries m)) then
              if negb (allowedLoop countryCode (allowCountries m)) then
                [ LoggerInfo (logger m) "Request blocked - country not in allow list"
                    [ ("country", AStr countryCode); ("ip", AStr host);
                      ("allowed_countries", AStrs (allowCountries m)) ];
                  HttpError "Access denied" Http.StatusForbidden ]
              else pass
            else if Nat.ltb 0 (length (blockCountries m)) then
              if blockedLoop countryCode (blockCountries m) then
                [ LoggerInfo (logger m) "Request blocked - country in block list"
                    [ ("country", AStr countryCode); ("ip", AStr host);
                      ("blocked_countries", AStrs (blockCountries m)) ];
                  HttpError "Access denied" Http.StatusForbidden ]
              else pass
            else pass
        | CountryErr _ => [NextServeHTTP (next m) r]
        end
  | None => [NextServeHTTP (next m) r]
  end.

End ServeHTTP.

(* ===================================================================== *)
(** * [FindGeoIP2Database]                                                *)
(* ===================================================================== *)

Section FindGeoIP2Database.

(** [filepath.Abs]; [None] is a non-nil error. *)
Variable Abs : string -> option string.

Definition possiblePaths : list string :=
  [ "./GeoLite2-Country.mmdb";
    "./data/GeoLite2-Country.mmdb";
    "./storage/GeoLite2-Country.mmdb";
    "./fixtures/GeoLite2-Country.mmdb" ].

(** Lines 112-118: the loop over the candidate paths, falling through
    to the final return of the empty string. *)
Fixpoint findLoop (paths : list string) : string :=
  match paths with
  | [] => EmptyString
  | path :: rest =>
      match Abs path with
      | Some absPath =>
          if negb (String.eqb absPath EmptyString) then absPath else findLoop rest
      | None => findLoop rest
      end
  end.

Definition FindGeoIP2Database : string := findLoop possiblePaths.

End FindGeoIP2Database.

(* ===================================================================== *)
(** * [NewHandler]                                                        *)
(* ===================================================================== *)

(** What [geoip2.Open] gives back. *)
Inductive OpenResult : Type :=
| OpenOk (r : Reader)
| OpenErr (err : string).

(** A record written through [slog.Default()] while the chain is built. *)
Inductive Diag : Type :=
| SlogWarn (msg : string) (attrs : list (string * Attr))
| SlogInfo (msg : string) (attrs : list (string * Attr)).

Section Handler.

(** The types [Cache] and [*url.URL] are only passed along. *)
Context {Cache URL : Type}.

(** [type HandlerOptions struct].  The last two fields are
    [allowCountries] and [blockCountries] in the source; the prefix keeps
    them apart from the fields of [GeoIPMiddleware]. *)
Record HandlerOptions : Type := mkHandlerOptions {
  badGatewayPage : string;
  cache : Cache;
  maxCacheableResponseBody : Z;
  maxRequestBody : Z;
  targetUrl : URL;
  xSendfileEnabled : bool;
  gzipCompressionEnabled : bool;
  forwardHeaders : bool;
  logRequests : bool;
  geoIP2Enabled : bool;
  opt_allowCountries : list string;
  opt_blockCountries : list string
}.

(** An [http.Handler] of the chain.  The factories that [NewHandler]
    calls and that live in other files of the repository
    ([NewProxyHandler], [NewCacheHandler], [NewSendfileHandler],
    [NewRequestStartMiddleware], [NewLoggingMiddleware]) or in
    libraries ([gzhttp.GzipHandler], [http.MaxBytesHandler]) are kept
    uninterpreted: the handler a factory returns is the constructor of
    that name applied to the arguments of the call. *)
#[warnings="-register-all"] Inductive Handler : Type :=
| NewProxyHandler (targetUrl : URL) (badGatewayPage : string) (forwardHeaders : bool)
| NewCacheHandler (cache : Cache) (maxBodySize : Z) (next : Handler)
| NewSendfileHandler (enabled : bool) (next : Handler)
| NewRequestStartMiddleware (next : Handler)
| GzipHandler (next : Handler)
| MaxBytesHandler (next : Handler) (n : Z)
| GeoIPHandler (m : GeoIPMiddleware Handler)
| NewLoggingMiddleware (logger : Logger) (next : Handler).

(** [filepath.Abs] and [geoip2.Open]: the two calls that reach the
    operating system while the chain is built. *)
Variable Abs : string -> option string.
Variable geoip2_Open : string -> OpenResult.

(** [int64(n)] of an [int]; the program is built for x86_64-linux,
    where [int] has 64 bits. *)
Definition int64 (n : Z) : Z := n.

(** [func NewHandler(options HandlerOptions) http.Handler], with the
    records it writes to the default logger. *)
Definition NewHandler (options : HandlerOptions) : Handler * list Diag :=
  let handler := NewProxyHandler (targetUrl options) (badGatewayPage options)
                                 (forwardHeaders options) in
  let handler := NewCacheHandler (cache options) (maxCacheableResponseBody options) handler in
  let handler := NewSendfileHandler (xSendfileEnabled options) handler in
  let handler := NewRequestStartMiddleware handler in
  let handler := if gzipCompressionEnabled options then GzipHandler handler else handler in
  let handler := if Z.ltb 0 (maxRequestBody options)
                 then MaxBytesHandler handler (int64 (maxRequestBody options))
                 else handler in
  let '(handler, diags) :=
    if geoIP2Enabled options then
      let dbPath := FindGeoIP2Database Abs in
      match geoip2_Open dbPath with
      | OpenErr err =>
          (handler,
           [SlogWarn "Failed to open GeoIP2 database. NOT loading the GeoIP2 middleware for IP filtering."
                     [("path", AStr dbPath); ("error", AStr err)]])
      | OpenOk reader =>
          (GeoIPHandler (NewGeoIPMiddleware reader slog_Default handler
                           (opt_allowCountries options) (opt_blockCountries options)),
           [SlogInfo "Loaded GeoIP2 country database & GeoIP2 middleware for IP filtering." []])
      end
    else (handler, []) in
  let handler := if logRequests options
                 then NewLoggingMiddleware slog_Default handler
                 else handler in
  (handler, diags).

(** The layers of a chain, outermost first. *)
Inductive Layer : Type :=
| LProxy | LCache | LSendfile (enabled : bool) | LRequestStart
| LGzip | LMaxBytes (n : Z) | LGeoIP (allow block : list string) | LLogging.

Fixpoint layers (h : Handler) : list Layer :=
  match h with
  | NewProxyHandler _ _ _ => [LProxy]
  | NewCacheHandler _ _ next => LCache :: layers next
  | NewSendfileHandler enabled next => LSendfile enabled :: layers next
  | NewRequestStartMiddleware next => LRequestStart :: layers next
  | GzipHandler next => LGzip :: layers next
  | MaxBytesHandler next n => LMaxBytes n :: layers next
  | GeoIPHandler m =>
      match m with
      | mkGeoIPMiddleware _ _ next allow block => LGeoIP allow block :: layers next
      end
  | NewLoggingMiddleware _ next => LLogging :: layers next
  end.

End Handler.

(* ===================================================================== *)
(** * The classifier of the specification                                 *)
(* ===================================================================== *)

(** The address classifier as section 4.1 of the specification words it:
    address blocks in prefix notation, tried in the order of the
    specification.  It is compared with [isLocalOrInternalIP] below. *)
Module Spec.

Inductive AddressClass : Type := Local | Private | Public.

(** The bits of a byte and of a byte sequence, most significant first. *)
Definition bitsOfByte (b : byte) : list bool :=
  map (N.testbit (Byte.to_N b)) [7; 6; 5; 4; 3; 2; 1; 0]%N.

Definition bitsOf (a : list byte) : list bool := flat_map bitsOfByte a.

(** The number a bit sequence spells, most significant bit first. *)
Definition valueOfBits (l : list bool) : N :=
  fold_left (fun acc (b : bool) => (2 * acc + if b then 1 else 0)%N) l 0%N.

(** [inBlock prefix n a]: the address [a] lies in the block
    [prefix/n], that is, it has the length of [prefix] and shares its
    first [n] bits. *)
Definition inBlock (prefix : list byte) (n : nat) (a : list byte) : bool :=
  Nat.eqb (length a) (length prefix)
  && bool_decide (firstn n (bitsOf a) = firstn n (bitsOf prefix)).

(** The address a byte slice stands for: four bytes are an IPv4
    address, sixteen bytes an IPv6 address, and the sixteen-byte
    addresses of [::ffff:0:0/96] are the IPv4 addresses in their
    mapped form (the form [net.ParseIP] returns for dotted text). *)
Inductive Address : Type :=
| IPv4Address (octets : list byte)
| IPv6Address (bytes : list byte).

Definition v4Mapped : list byte :=
  [x00; x00; x00; x00; x00; x00; x00; x00; x00; x00; xff; xff; x00; x00; x00; x00].

Definition address (ip : Net.IP) : option Address :=
  if Nat.eqb (length ip) 4 then Some (IPv4Address ip)
  else if inBlock v4Mapped 96 ip then Some (IPv4Address (skipn 12 ip))
  else if Nat.eqb (length ip) 16 then Some (IPv6Address ip)
  else None.

Definition loopback4 : list byte := [x7f; x00; x00; x00].     (* 127.0.0.0/8 *)
Definition private10 : list byte := [x0a; x00; x00; x00].     (* 10.0.0.0/8 *)
Definition private172 : list byte := [xac; x10; x00; x00].    (* 172.16.0.0/12 *)
Definition private192 : list byte := [xc0; xa8; x00; x00].    (* 192.168.0.0/16 *)
Definition linkLocal4 : list byte := [xa9; xfe; x00; x00].    (* 169.254.0.0/16 *)
Definition loopback6 : list byte :=                           (* ::1/128 *)
  [x00; x00; x00; x00; x00; x00; x00; x00; x00; x00; x00; x00; x00; x00; x00; x01].
Definition uniqueLocal6 : list byte :=                        (* fc00::/7 *)
  [xfc; x00; x00; x00; x00; x00; x00; x00; x00; x00; x00; x00; x00; x00; x00; x00].
Definition linkLocal6 : list byte :=                          (* fe80::/10 *)
  [xfe; x80; x00; x00; x00; x00; x00; x00; x00; x00; x00; x00; x00; x00; x00; x00].

(** Steps 1 to 5 of section 4.1, first match wins. *)
Definition classify (ip : Net.IP) : AddressClass :=
  match address ip with
  | Some (IPv4Address a) =>
      if inBlock loopback4 8 a then Local
      else if inBlock private10 8 a then Private
      else if inBlock private172 12 a then Private
      else if inBlock private192 16 a then Private
      else if inBlock linkLocal4 16 a then Private
      else Public
  | Some (IPv6Address a) =>
      if inBlock loopback6 128 a then Local
      else if inBlock uniqueLocal6 7 a then Private
      else if inBlock linkLocal6 10 a then Private
      else Public
  | None => Public
  end.

Definition isPublic (c : AddressClass) : bool :=
  match c with Public => true | _ => false end.

End Spec.

(* ===================================================================== *)
(** * Vocabulary of the statements                                        *)
(* ===================================================================== *)

(** The text [ServeHTTP] hands to [net.ParseIP] (lines 33-42): the first
    value of the forwarding header, or the peer address when that is
    empty, without its port. *)
Definition clientHost (r : Http.Request) : string :=
  let remoteAddr := Http.Get (Http.Header r) "X-Forwarded-For" in
  let remoteAddr := if String.eqb remoteAddr EmptyString then Http.RemoteAddr r else remoteAddr in
  match NetAddr.SplitHostPort remoteAddr with
  | Some (host, _) => host
  | None => remoteAddr
  end.

(** The request with the country annotation written on it. *)
Definition withCountry (r : Http.Request) (countryCode : string) : Http.Request :=
  Http.mkRequest (Http.Set_ (Http.Header r) "X-GeoIP-Country" countryCode) (Http.RemoteAddr r).

(** The middleware with another block list. *)
Definition withBlockCountries {H : Type} (m : GeoIPMiddleware H) (block : list string)
    : GeoIPMiddleware H :=
  {| reader := reader m; logger := logger m; next := next m;
     allowCountries := allowCountries m; blockCountries := block |}.

Definition isHttpError {H : Type} (e : Event H) : bool :=
  match e with HttpError _ _ => true | _ => false end.

Definition isNextServeHTTP {H : Type} (e : Event H) : bool :=
  match e with NextServeHTTP _ _ => true | _ => false end.

Definition isReaderCountry {H : Type} (e : Event H) : bool :=
  match e with ReaderCountry _ => true | _ => false end.

(** The call answered the request itself, with [http.Error]. *)
Definition rejected {H : Type} (t : list (Event H)) : bool := existsb isHttpError t.

(** The call handed the request to the next handler. *)
Definition passedOn {H : Type} (t : list (Event H)) : bool := existsb isNextServeHTTP t.

(** The call asked the database. *)
Definition lookedUp {H : Type} (t : list (Event H)) : bool := existsb isReaderCountry t.

(** The events of a call that reach the [http.ResponseWriter]. *)
Definition answers {H : Type} (t : list (Event H)) : list (Event H) :=
  List.filter (fun e => isHttpError e || isNextServeHTTP e) t.

(** The first value of a header, as the request carries it. *)
Definition headerValue (r : Http.Request) (key : string) : option string :=
  match Http.Header r !! key with
  | Some (v :: _) => Some v
  | _ => None
  end.

(** The text the address is taken from, in the words of section 4.2:
    the forwarding header when it is present and not empty, else the
    peer address of the transport. *)
Inductive originText (r : Http.Request) : string -> Prop :=
| origin_forwarded (v : string) :
    headerValue r "X-Forwarded-For" = Some v -> v <> EmptyString ->
    originText r v
| origin_peer :
    headerValue r "X-Forwarded-For" = None
    \/ headerValue r "X-Forwarded-For" = Some EmptyString ->
    originText r (Http.RemoteAddr r).

(** A text free of colons and square brackets. *)
Definition plain (s : string) : bool :=
  negb (GoString.contains s ":") && negb (GoString.contains s "[")
  && negb (GoString.contains s "]").

Definition bracketFree (s : string) : bool :=
  negb (GoString.contains s "[") && negb (GoString.contains s "]").

(** [hostOf text host]: [host] is [text] without its trailing port.  The
    forms with a port are [host:port] and the bracketed [[host]:port];
    a text of neither form has no port to strip and is its own host, as
    are in particular a text without any colon and a bare IPv6 address
    (several colons, no bracket in front). *)
Inductive hostOf : string -> string -> Prop :=
| host_port (h p : string) :
    plain h = true -> plain p = true ->
    hostOf (h +:+ ":" +:+ p) h
| host_bracketed (h p : string) :
    bracketFree h = true -> plain p = true ->
    hostOf ("[" +:+ h +:+ "]:" +:+ p) h
| host_no_colon (s : string) :
    GoString.contains s ":" = false ->
    hostOf s s
| host_bare_v6 (s : string) (i j : nat) :
    String.get 0 s <> Some "["%char ->
    GoString.IndexByteString s ":" = Some i ->
    GoString.LastIndexByteString s ":" = Some j ->
    i <> j ->
    hostOf s s
| host_unsplit (s : string) :
    (forall h p, plain h = true -> plain p = true -> s <> h +:+ ":" +:+ p) ->
    (forall h p, bracketFree h = true -> plain p = true -> s <> "[" +:+ h +:+ "]:" +:+ p) ->
    hostOf s s.

(** The chain as the specification orders it in section 4.3 when the
    instrumentation is taken to be the outermost layer: the optional
    layers next, every disabled layer left out.  It is compared with the
    chain [NewHandler] builds. *)
Definition claimedLayers {Cache URL : Type} (geoOpened : bool)
    (options : @HandlerOptions Cache URL) : list Layer :=
  [LRequestStart]
  ++ (if logRequests options then [LLogging] else [])
  ++ (if geoIP2Enabled options && geoOpened
      then [LGeoIP (opt_allowCountries options) (opt_blockCountries options)] else [])
  ++ (if Z.ltb 0 (maxRequestBody options) then [LMaxBytes (maxRequestBody options)] else [])
  ++ (if gzipCompressionEnabled options then [LGzip] else [])
  ++ (if xSendfileEnabled options then [LSendfile true] else [])
  ++ [LCache; LProxy].

(** The options with the filter switched off. *)
Definition withoutGeoIP2 {Cache URL : Type} (o : @HandlerOptions Cache URL)
    : @HandlerOptions Cache URL :=
  {| badGatewayPage := badGatewayPage o; cache := cache o;
     maxCacheableResponseBody := maxCacheableResponseBody o;
     maxRequestBody := maxRequestBody o; targetUrl := targetUrl o;
     xSendfileEnabled := xSendfileEnabled o;
     gzipCompressionEnabled := gzipCompressionEnabled o;
     forwardHeaders := forwardHeaders o; logRequests := logRequests o;
     geoIP2Enabled := false;
     opt_allowCountries := opt_allowCountries o;
     opt_blockCountries := opt_blockCountries o |}.

(* ===================================================================== *)
(** * Inputs of the examples                                              *)
(* ===================================================================== *)

Module Examples.

(** [net.ParseIP] on the four addresses the examples use; any other
    text is taken as unparseable. *)
Definition parseIPTable (s : string) : option Net.IP :=
  if String.eqb s "127.0.0.1" then Some (Net.IPv4 x7f x00 x00 x01)
  else if String.eqb s "10.0.0.5" then Some (Net.IPv4 x0a x00 x00 x05)
  else if String.eqb s "203.0.113.1" then Some (Net.IPv4 xcb x00 x71 x01)
  else if String.eqb s "8.8.8.8" then Some (Net.IPv4 x08 x08 x08 x08)
  else None.

(** The examples hold ASCII text only, so the rune loop of
    [strings.EqualFold] is never entered. *)
Definition noRunes (s t : string) : bool := false.

(** A request from a peer, with or without a forwarding header. *)
Definition requestFrom (remote : string) : Http.Request :=
  Http.mkRequest ∅ remote.

Definition forwarded (xff remote : string) : Http.Request :=
  Http.mkRequest {[ "X-Forwarded-For" := [xff] ]} remote.

(** A database that answers every address with one code, and one that
    fails. *)
Definition readerOf (code : string) : Reader := fun _ => CountryOk code.
Definition readerFailing : Reader := fun _ => CountryErr "corrupt database".

(** The filter in front of a handler named by a string. *)
Definition filter (rd : Reader) (allow block : list string) : GeoIPMiddleware string :=
  NewGeoIPMiddleware rd slog_Default "downstream" allow block.

Definition serve := @ServeHTTP string parseIPTable noRunes.

(** 203.0.113.1 and 10.0.0.5 as [net.ParseIP] returns them. *)
Definition publicIP : Net.IP := Net.IPv4 xcb x00 x71 x01.
Definition privateIP : Net.IP := Net.IPv4 x0a x00 x00 x05.

(** A peer on the public address; the same peer behind a forwarding
    header that names the private address; a peer whose address is no
    address; and a public address forwarded by an internal balancer. *)
Definition fromPublic : Http.Request := requestFrom "203.0.113.1:55000".
Definition fromPrivate : Http.Request := forwarded "10.0.0.5" "203.0.113.1:55000".
Definition fromNowhere : Http.Request := requestFrom "not-an-address".
Definition viaBalancer : Http.Request := forwarded "203.0.113.1:8080" "10.0.0.5:1234".

(** [filepath.Abs] on a relative path below the working directory
    [wd], and two outcomes of opening the database. *)
Definition absIn (wd : string) (path : string) : option string :=
  Some (wd +:+ "/" +:+ (if String.prefix "./" path
                        then substring 2 (String.length path - 2) path
                        else path)).
Definition openFails (path : string) : OpenResult := OpenErr "no such file".
Definition openWorks (path : string) : OpenResult := OpenOk (readerOf "US").

Definition options (gzip logging geo : bool) : @HandlerOptions unit string :=
  {| badGatewayPage := "502.html"; cache := tt;
     maxCacheableResponseBody := 1024; maxRequestBody := 0;
     targetUrl := "http://localhost:3000";
     xSendfileEnabled := false; gzipCompressionEnabled := gzip;
     forwardHeaders := true; logRequests := logging; geoIP2Enabled := geo;
     opt_allowCountries := ["US"]; opt_blockCountries := [] |}.

End Examples.

(* ===================================================================== *)
(** * The classifier with its bounds written out                          *)
(* ===================================================================== *)

(** The same functions with every index and slice expression checked as
    the Go runtime checks it: [None] is the panic on an index or a slice
    bound out of range. *)
Module Checked.

Definition bind {A B : Type} (c : option A) (k : A -> option B) : option B :=
  match c with
  | Some a => k a
  | None => None
  end.

Notation "x <- c ;; k" := (bind c (fun x => k))
  (at level 100, c at next level, right associativity).

(** [ip[i]] *)
Definition index (ip : Net.IP) (i : nat) : option N :=
  match ip !! i with
  | Some b => Some (Byte.to_N b)
  | None => None
  end.

(** [ip[lo:hi]] and [ip[lo:]] *)
Definition slice (ip : Net.IP) (lo hi : nat) : option Net.IP :=
  if Nat.leb lo hi && Nat.leb hi (length ip) then Some (Net.slice ip lo hi) else None.

Definition sliceFrom (ip : Net.IP) (lo : nat) : option Net.IP :=
  if Nat.leb lo (length ip) then Some (skipn lo ip) else None.

(** [a && b]: the right operand is evaluated only when the left one is
    true. *)
Definition andThen (a b : option bool) : option bool :=
  match a with
  | Some true => b
  | _ => a
  end.

(** [func (ip IP) To4() IP]; the inner [None] is the nil result. *)
Definition To4 (ip : Net.IP) : option (option Net.IP) :=
  if Nat.eqb (length ip) Net.IPv4len then Some (Some ip)
  else
    mapped <- andThen (andThen (andThen (Some (Nat.eqb (length ip) Net.IPv6len))
                                        (z <- slice ip 0 10 ;; Some (Net.isZeros z)))
                               (b <- index ip 10 ;; Some (N.eqb b 0xff)))
                      (b <- index ip 11 ;; Some (N.eqb b 0xff)) ;;
    if (mapped : bool) then (s <- slice ip 12 16 ;; Some (Some s)) else Some None.

(** [func (ip IP) Equal(x IP) bool] *)
Definition Equal (ip x : Net.IP) : option bool :=
  if Nat.eqb (length ip) (length x) then Some (Net.bytes_Equal ip x)
  else if Nat.eqb (length ip) Net.IPv4len && Nat.eqb (length x) Net.IPv6len
       then andThen (p <- slice x 0 12 ;; Some (Net.bytes_Equal p Net.v4InV6Prefix))
                    (q <- sliceFrom x 12 ;; Some (Net.bytes_Equal ip q))
  else if Nat.eqb (length ip) Net.IPv6len && Nat.eqb (length x) Net.IPv4len
       then andThen (p <- slice ip 0 12 ;; Some (Net.bytes_Equal p Net.v4InV6Prefix))
                    (q <- sliceFrom ip 12 ;; Some (Net.bytes_Equal q x))
  else Some false.

(** [func (ip IP) IsLoopback() bool] *)
Definition IsLoopback (ip : Net.IP) : option bool :=
  ip4 <- To4 ip ;;
  match ip4 with
  | Some ip4 => b <- index ip4 0 ;; Some (N.eqb b 127)
  | None => Equal ip Net.IPv6loopback
  end.

(** [isLocalOrInternalIP], lines 124-171. *)
Definition isLocalOrInternalIP (ip : Net.IP) : option bool :=
  if Nat.eqb (length ip) 0 then Some false
  else
    loop <- IsLoopback ip ;;
    if (loop : bool) then Some true
    else
      same <- Equal ip Net.IPv6loopback ;;
      if (same : bool) then Some true
      else
        ipv4 <- To4 ip ;;
        private <-
          match ipv4 with
          | Some ipv4 =>
              ten <- (b <- index ipv4 0 ;; Some (N.eqb b 10)) ;;
              if (ten : bool) then Some true
              else
                r172 <- andThen (andThen (b <- index ipv4 0 ;; Some (N.eqb b 172))
                                         (b <- index ipv4 1 ;; Some (N.leb 16 b)))
                                (b <- index ipv4 1 ;; Some (N.leb b 31)) ;;
                if (r172 : bool) then Some true
                else
                  r192 <- andThen (b <- index ipv4 0 ;; Some (N.eqb b 192))
                                  (b <- index ipv4 1 ;; Some (N.eqb b 168)) ;;
                  if (r192 : bool) then Some true
                  else
                    r169 <- andThen (b <- index ipv4 0 ;; Some (N.eqb b 169))
                                    (b <- index ipv4 1 ;; Some (N.eqb b 254)) ;;
                    if (r169 : bool) then Some true else Some false
          | None => Some false
          end ;;
        if (private : bool) then Some true
        else
          ula <- andThen (Some (Nat.eqb (length ip) 16))
                         (b <- index ip 0 ;; Some (N.eqb (N.land b 0xfe) 0xfc)) ;;
          if (ula : bool) then Some true
          else
            ll <- andThen (andThen (Some (Nat.eqb (length ip) 16))
                                   (b <- index ip 0 ;; Some (N.eqb b 0xfe)))
                          (b <- index ip 1 ;; Some (N.eqb (N.land b 0xc0) 0x80)) ;;
            if (ll : bool) then Some true else Some false.

End Checked.

(* ===================================================================== *)
(** * Further vocabulary                                                  *)
(* ===================================================================== *)

Definition isLoggerInfo {H : Type} (e : Event H) : bool :=
  match e with LoggerInfo _ _ _ => true | _ => false end.

(** The call wrote a record to the logger. *)
Definition logged {H : Type} (t : list (Event H)) : bool := existsb isLoggerInfo t.

(** The request arriving from another peer, and the request carrying a
    forwarding header set with [Header.Set]. *)
Definition withRemoteAddr (r : Http.Request) (addr : string) : Http.Request :=
  Http.mkRequest (Http.Header r) addr.

Definition withForwardedFor (r : Http.Request) (v : string) : Http.Request :=
  Http.mkRequest (Http.Set_ (Http.Header r) "X-Forwarded-For" v) (Http.RemoteAddr r).

(** The middleware with other lists. *)
Definition withLists {H : Type} (m : GeoIPMiddleware H) (allow block : list string)
    : GeoIPMiddleware H :=
  {| reader := reader m; logger := logger m; next := next m;
     allowCountries := allow; blockCountries := block |}.

(** Texts of ASCII bytes, and their lower-case form. *)
Definition isASCIIchar (c : ascii) : bool := N.ltb (N_of_ascii c) 128.

Fixpoint isASCII (s : string) : bool :=
  match s with
  | EmptyString => true
  | String c s' => isASCIIchar c && isASCII s'
  end.

Fixpoint lowerASCII (s : string) : string :=
  match s with
  | EmptyString => EmptyString
  | String c s' => String (Http.toLower c) (lowerASCII s')
  end.

(** Every byte value. *)
Definition allChars : list ascii := map ascii_of_nat (seq 0 256).

(** The test the byte loop of [strings.EqualFold] makes on two bytes. *)
Definition foldsTo (a b : ascii) : bool :=
  let x := N_of_ascii a in
  let y := N_of_ascii b in
  N.eqb y x
  || (N.leb 65 (N.min x y) && N.leb (N.min x y) 90 && N.eqb (N.max x y) (N.min x y + 97 - 65)).

(** Equality of two texts without regard to case.  Two ASCII bytes agree
    when their lower-case forms do, [A] to [Z] being the only bytes with
    a lower-case form of their own; from the first byte outside ASCII on,
    the rest of the two texts is compared by the rune loop of
    [strings.EqualFold], the parameter [foldRunes]. *)
Inductive sameUpToCase (foldRunes : string -> string -> bool) : string -> string -> Prop :=
| same_end :
    sameUpToCase foldRunes EmptyString EmptyString
| same_byte (a b : ascii) (s t : string) :
    isASCIIchar a = true -> isASCIIchar b = true ->
    Http.toLower a = Http.toLower b ->
    sameUpToCase foldRunes s t ->
    sameUpToCase foldRunes (String a s) (String b t)
| same_runes (a b : ascii) (s t : string) :
    isASCIIchar a && isASCIIchar b = false ->
    foldRunes (String a s) (String b t) = true ->
    sameUpToCase foldRunes (String a s) (String b t).

(** The options with logging and the filter switched off. *)
Definition innerOptions {Cache URL : Type} (o : @HandlerOptions Cache URL)
    : @HandlerOptions Cache URL :=
  {| badGatewayPage := badGatewayPage o; cache := cache o;
     maxCacheableResponseBody := maxCacheableResponseBody o;
     maxRequestBody := maxRequestBody o; targetUrl := targetUrl o;
     xSendfileEnabled := xSendfileEnabled o;
     gzipCompressionEnabled := gzipCompressionEnabled o;
     forwardHeaders := forwardHeaders o; logRequests := false;
     geoIP2Enabled := false;
     opt_allowCountries := opt_allowCountries o;
     opt_blockCountries := opt_blockCountries o |}.

(** The five shapes the trace of a call can take: the address does not
    parse, it is local, the lookup fails, the request passes after a
    lookup, the request is rejected after a lookup. *)
Inductive Shape {H : Type} (ParseIP : string -> option Net.IP)
    (m : GeoIPMiddleware H) (r : Http.Request) : list (Event H) -> Prop :=
| shape_unparsed :
    ParseIP (clientHost r) = None ->
    Shape ParseIP m r [NextServeHTTP (next m) r]
| shape_local ip :
    ParseIP (clientHost r) = Some ip -> isLocalOrInternalIP ip = true ->
    Shape ParseIP m r [NextServeHTTP (next m) r]
| shape_failed ip err :
    ParseIP (clientHost r) = Some ip -> isLocalOrInternalIP ip = false ->
    reader m ip = CountryErr err ->
    Shape ParseIP m r [ReaderCountry ip; NextServeHTTP (next m) r]
| shape_passed ip c :
    ParseIP (clientHost r) = Some ip -> isLocalOrInternalIP ip = false ->
    reader m ip = CountryOk c ->
    Shape ParseIP m r [ReaderCountry ip;
               NextServeHTTP (next m) (if negb (String.eqb c EmptyString) then withCountry r c else r)]
| shape_rejected ip c msg key l :
    ParseIP (clientHost r) = Some ip -> isLocalOrInternalIP ip = false ->
    reader m ip = CountryOk c ->
    (msg = "Request blocked - country not in allow list" /\ key = "allowed_countries"
     /\ l = allowCountries m /\ l <> []
     \/ msg = "Request blocked - country in block list" /\ key = "blocked_countries"
        /\ l = blockCountries m /\ allowCountries m = [] /\ l <> []) ->
    Shape ParseIP m r [ReaderCountry ip;
               LoggerInfo (logger m) msg
                 [("country", AStr c); ("ip", AStr (clientHost r)); (key, AStrs l)];
               HttpError "Access denied" Http.StatusForbidden].

(* ===================================================================== *)
(** * The handler of the repository's test                                *)
(* ===================================================================== *)

Module Test.

(** What a test reads off its [httptest.ResponseRecorder]. *)
Record Recorder : Type := mkRecorder {
  Code : Z;
  RecHeader : Http.header;
  Body : string
}.

Definition StatusOK : Z := 200.

(** [nextHandler] of [TestGeoIPMiddleware_ServeHTTP]: it copies the
    annotation it finds into the response header Test-Country and
    answers 200. *)
Definition nextHandler (r : Http.Request) : Recorder :=
  let country := Http.Get (Http.Header r) "X-GeoIP-Country" in
  let h := if negb (String.eqb country EmptyString)
           then Http.Set_ ∅ "Test-Country" country
           else ∅ in
  {| Code := StatusOK; RecHeader := h; Body := EmptyString |}.

(** [http.Error(w, msg, code)] on a fresh recorder: two headers, the
    status, and the text followed by a newline. *)
Definition httpError (msg : string) (code : Z) : Recorder :=
  {| Code := code;
     RecHeader := Http.Set_ (Http.Set_ ∅ "Content-Type" "text/plain; charset=utf-8")
                            "X-Content-Type-Options" "nosniff";
     Body := msg +:+ String (ascii_of_nat 10) EmptyString |}.

(** [middleware.ServeHTTP(rec, req)] with [nextHandler] as the next
    handler: the recorder after the events of the call.  A recorder
    nobody wrote to reads 200 with no header. *)
Fixpoint record {H : Type} (t : list (Event H)) : Recorder :=
  match t with
  | [] => {| Code := StatusOK; RecHeader := ∅; Body := EmptyString |}
  | HttpError msg code :: _ => httpError msg code
  | NextServeHTTP _ r :: _ => nextHandler r
  | _ :: t' => record t'
  end.

End Test.

(* ===================================================================== *)
(** * The classifier against the address blocks                           *)
(* ===================================================================== *)

Section Classifier.

Import Spec.

Lemma byte_eqb_to_N (a p : byte) : Byte.eqb a p = N.eqb (Byte.to_N a) (Byte.to_N p).
Proof.
  destruct (Byte.eqb a p) eqn:E.
  - apply Byte.byte_dec_bl in E. subst. symmetry. apply N.eqb_refl.
  - symmetry. apply N.eqb_neq. intros Hn.
    apply Byte.eqb_false in E. apply E.
    assert (Hs : Some a = Some p) by (rewrite <- !Byte.of_to_N, Hn; reflexivity).
    congruence.
Qed.

Lemma valueOfBits_bitsOfByte (a : byte) : valueOfBits (bitsOfByte a) = Byte.to_N a.
Proof. destruct a; reflexivity. Qed.

Lemma bitsOfByte_inj (a p : byte) : bitsOfByte a = bitsOfByte p -> a = p.
Proof.
  intros E. apply (f_equal valueOfBits) in E. rewrite !valueOfBits_bitsOfByte in E.
  assert (Hs : Some a = Some p) by (rewrite <- !Byte.of_to_N, E; reflexivity).
  congruence.
Qed.

Lemma length_bitsOfByte (a : byte) : length (bitsOfByte a) = 8.
Proof. reflexivity. Qed.

Lemma samePrefix_cons (n : nat) (a p : byte) (l q : list byte) :
  bool_decide (firstn n (bitsOf (a :: l)) = firstn n (bitsOf (p :: q)))
  = if Nat.leb 8 n
    then Byte.eqb a p && bool_decide (firstn (n - 8) (bitsOf l) = firstn (n - 8) (bitsOf q))
    else bool_decide (firstn n (bitsOfByte a) = firstn n (bitsOfByte p)).
Proof.
  change (bitsOf (a :: l)) with (bitsOfByte a ++ bitsOf l).
  change (bitsOf (p :: q)) with (bitsOfByte p ++ bitsOf q).
  rewrite !firstn_app, !length_bitsOfByte.
  destruct (Nat.leb_spec 8 n) as [Hle | Hlt].
  - rewrite (firstn_all2 (n := n) (bitsOfByte a)) by exact Hle.
    rewrite (firstn_all2 (n := n) (bitsOfByte p)) by exact Hle.
    destruct (Byte.eqb a p) eqn:E.
    + apply Byte.byte_dec_bl in E. subst p. rewrite andb_true_l.
      apply bool_decide_ext. split; intros Hq.
      * apply app_inv_head in Hq. exact Hq.
      * rewrite Hq. reflexivity.
    + rewrite andb_false_l. apply bool_decide_eq_false. intros Hq.
      apply app_inj_1 in Hq; [| reflexivity].
      destruct Hq as [Hq _]. apply bitsOfByte_inj in Hq.
      apply Byte.eqb_false in E. contradiction.
  - replace (n - 8)%nat with 0%nat by lia. simpl. rewrite !app_nil_r. reflexivity.
Qed.

Lemma prefix4_x10 (a : byte) :
  bool_decide (firstn 4 (bitsOfByte a) = firstn 4 (bitsOfByte x10))
  = N.leb 16 (Byte.to_N a) && N.leb (Byte.to_N a) 31.
Proof. destruct a; reflexivity. Qed.

Lemma prefix7_xfc (a : byte) :
  bool_decide (firstn 7 (bitsOfByte a) = firstn 7 (bitsOfByte xfc))
  = N.eqb (N.land (Byte.to_N a) 0xfe) 0xfc.
Proof. destruct a; reflexivity. Qed.

Lemma prefix2_x80 (a : byte) :
  bool_decide (firstn 2 (bitsOfByte a) = firstn 2 (bitsOfByte x80))
  = N.eqb (N.land (Byte.to_N a) 0xc0) 0x80.
Proof. destruct a; reflexivity. Qed.

Lemma samePrefix_nil (n : nat) :
  bool_decide (firstn n (bitsOf []) = firstn n (bitsOf [])) = true.
Proof. apply bool_decide_eq_true. reflexivity. Qed.

Lemma samePrefix_0 (l q : list bool) :
  bool_decide (firstn 0 l = firstn 0 q) = true.
Proof. apply bool_decide_eq_true. reflexivity. Qed.


Lemma inBlock_nil (n : nat) : inBlock [] n [] = true.
Proof. unfold inBlock. rewrite samePrefix_nil. reflexivity. Qed.

Lemma inBlock_cons (n : nat) (a p : byte) (l q : list byte) :
  inBlock (p :: q) n (a :: l)
  = if Nat.leb 8 n
    then Byte.eqb a p && inBlock q (n - 8) l
    else Nat.eqb (length l) (length q)
         && bool_decide (firstn n (bitsOfByte a) = firstn n (bitsOfByte p)).
Proof.
  unfold inBlock. rewrite samePrefix_cons. cbn [length Nat.eqb].
  destruct (Nat.leb 8 n); [| reflexivity].
  destruct (Nat.eqb (length l) (length q)), (Byte.eqb a p); reflexivity.
Qed.

(** Membership of a slice spelled out byte by byte in a block. *)
Ltac blocks :=
  unfold loopback4, private10, private172, private192, linkLocal4,
    loopback6, uniqueLocal6, linkLocal6, v4Mapped;
  repeat (rewrite inBlock_cons; cbn [Nat.leb Nat.sub]);
  rewrite ?inBlock_nil, ?samePrefix_0, ?prefix4_x10, ?prefix7_xfc, ?prefix2_x80, ?byte_eqb_to_N.

(** Case analysis on the byte tests left in the goal. *)
Ltac atoms :=
  repeat (cbn -[inBlock]; blocks;
          repeat match goal with
                 | E : Byte.to_N ?b = _ |- context [Byte.to_N ?b] => rewrite !E
                 end;
          cbn -[inBlock]; try reflexivity;
          match goal with
          | |- context [N.eqb ?x ?y] =>
              let E := fresh "E" in
              destruct (N.eqb_spec x y) as [E | E];
              [ try congruence; try (exfalso; vm_compute in E; discriminate E);
                try rewrite !E
              | try (exfalso; apply E; vm_compute; reflexivity) ]
          | |- context [N.leb ?x ?y] => destruct (N.leb x y)
          end).

Lemma classify_len4 (a b c d : byte) :
  isLocalOrInternalIP [a; b; c; d] = negb (isPublic (classify [a; b; c; d])).
Proof.
  unfold classify, address, isLocalOrInternalIP, Net.IsLoopback, Net.To4, Net.Equal, Net.idx.
  atoms.
Qed.

Lemma classify_len16 (b0 b1 b2 b3 b4 b5 b6 b7 b8 b9 b10 b11 b12 b13 b14 b15 : byte) :
  let ip := [b0; b1; b2; b3; b4; b5; b6; b7; b8; b9; b10; b11; b12; b13; b14; b15] in
  isLocalOrInternalIP ip = negb (isPublic (classify ip)).
Proof.
  intros ip. subst ip.
  unfold classify, address, isLocalOrInternalIP, Net.IsLoopback, Net.To4, Net.Equal, Net.idx.
  atoms.
Qed.

(** The code and the classifier of the specification agree on every
    byte slice, whatever its length. *)
Lemma isLocalOrInternalIP_classify (ip : Net.IP) :
  isLocalOrInternalIP ip = negb (isPublic (classify ip)).
Proof.
  destruct ip as [|b0 ip]; [reflexivity|].
  destruct ip as [|b1 ip]; [reflexivity|].
  destruct ip as [|b2 ip]; [reflexivity|].
  destruct ip as [|b3 ip]; [reflexivity|].
  destruct ip as [|b4 ip]; [apply classify_len4|].
  do 11 (destruct ip as [|? ip]; [reflexivity|]).
  destruct ip as [|? ip]; [apply classify_len16|].
  reflexivity.
Qed.
End Classifier.

(** C4. The classifier of the code recognises exactly the address blocks
    of the specification: an address is local or internal when it lies
    in 127.0.0.0/8, is the IPv6 loopback, or lies in 10.0.0.0/8,
    172.16.0.0/12, 192.168.0.0/16, 169.254.0.0/16, fc00::/7 or
    fe80::/10, and every other address is public. *)
Theorem classifier_recognises_the_blocks (ip : Net.IP) :
  isLocalOrInternalIP ip = negb (Spec.isPublic (Spec.classify ip)).
Proof. apply isLocalOrInternalIP_classify. Qed.

(* ===================================================================== *)
(** * The comparison of country codes                                     *)
(* ===================================================================== *)

Section CaseFolding.

Variable foldRunes : string -> string -> bool.

Lemma in_allChars (a : ascii) : In a allChars.
Proof.
  unfold allChars. apply in_map_iff. exists (nat_of_ascii a).
  split; [apply ascii_nat_embedding |].
  apply in_seq. split; [lia |]. apply nat_ascii_bounded.
Qed.

Lemma fold_table :
  forallb (fun a =>
    forallb (fun b =>
      implb (isASCIIchar a && isASCIIchar b)
            (negb (N.leb GoString.RuneSelf (N.lor (N_of_ascii a) (N_of_ascii b)))
             && Bool.eqb (foldsTo a b) (Ascii.eqb (Http.toLower a) (Http.toLower b))))
      allChars) allChars = true.
Proof. vm_compute. reflexivity. Qed.

Lemma fold_chars (a b : ascii) :
  isASCIIchar a = true -> isASCIIchar b = true ->
  N.leb GoString.RuneSelf (N.lor (N_of_ascii a) (N_of_ascii b)) = false
  /\ foldsTo a b = Ascii.eqb (Http.toLower a) (Http.toLower b).
Proof.
  intros Ha Hb. pose proof fold_table as Ht.
  rewrite forallb_forall in Ht. specialize (Ht a (in_allChars a)).
  rewrite forallb_forall in Ht. specialize (Ht b (in_allChars b)).
  rewrite Ha, Hb in Ht. cbn [andb implb] in Ht.
  apply andb_prop in Ht as [H1 H2].
  apply negb_true_iff in H1. apply Bool.eqb_prop in H2. auto.
Qed.

Lemma rune_table :
  forallb (fun a =>
    forallb (fun b =>
      implb (negb (isASCIIchar a && isASCIIchar b))
            (N.leb GoString.RuneSelf (N.lor (N_of_ascii a) (N_of_ascii b))))
      allChars) allChars = true.
Proof. vm_compute. reflexivity. Qed.

Lemma rune_chars (a b : ascii) :
  isASCIIchar a && isASCIIchar b = false ->
  N.leb GoString.RuneSelf (N.lor (N_of_ascii a) (N_of_ascii b)) = true.
Proof.
  intros Hab. pose proof rune_table as Ht.
  rewrite forallb_forall in Ht. specialize (Ht a (in_allChars a)).
  rewrite forallb_forall in Ht. specialize (Ht b (in_allChars b)).
  rewrite Hab in Ht. exact Ht.
Qed.

(** One step of the byte loop of [strings.EqualFold]. *)
Lemma EqualFold_step (a b : ascii) (s t : string) :
  EqualFold foldRunes (String a s) (String b t)
  = if isASCIIchar a && isASCIIchar b
    then Ascii.eqb (Http.toLower a) (Http.toLower b) && EqualFold foldRunes s t
    else foldRunes (String a s) (String b t).
Proof.
  unfold EqualFold. cbn [GoString.EqualFold]. cbv zeta.
  destruct (isASCIIchar a && isASCIIchar b) eqn:Hab.
  - apply andb_prop in Hab as [Ha Hb].
    destruct (fold_chars a b Ha Hb) as [Hrune Hfold].
    rewrite Hrune, <- Hfold. unfold foldsTo. cbv zeta.
    destruct (N.eqb (N_of_ascii b) (N_of_ascii a)); cbn [orb andb]; [reflexivity |].
    destruct (N.leb 65 (N.min (N_of_ascii a) (N_of_ascii b))
              && N.leb (N.min (N_of_ascii a) (N_of_ascii b)) 90
              && N.eqb (N.max (N_of_ascii a) (N_of_ascii b))
                       (N.min (N_of_ascii a) (N_of_ascii b) + 97 - 65)); reflexivity.
  - rewrite (rune_chars a b Hab). reflexivity.
Qed.

(** [strings.EqualFold] decides equality without regard to case. *)
Lemma EqualFold_same (s t : string) :
  EqualFold foldRunes s t = true <-> sameUpToCase foldRunes s t.
Proof.
  split.
  - revert t. induction s as [| a s IH]; intros [| b t] He; try discriminate He.
    + apply same_end.
    + rewrite EqualFold_step in He.
      destruct (isASCIIchar a && isASCIIchar b) eqn:Hab.
      * apply andb_prop in Hab as [Ha Hb]. apply andb_prop in He as [Hc He].
        apply Ascii.eqb_eq in Hc. apply same_byte; auto.
      * apply same_runes; assumption.
  - intros Hs. induction Hs as [| a b s t Ha Hb Hab _ IH | a b s t Hab Hf].
    + reflexivity.
    + rewrite EqualFold_step, Ha, Hb, Hab, Ascii.eqb_refl, IH. reflexivity.
    + rewrite EqualFold_step, Hab. exact Hf.
Qed.

(** On ASCII text that equality is the equality of the lower-case forms. *)
Lemma sameUpToCase_ascii (s t : string) :
  isASCII s = true -> isASCII t = true ->
  (sameUpToCase foldRunes s t <-> lowerASCII s = lowerASCII t).
Proof.
  intros Hs Ht. split.
  - intros Hst. induction Hst as [| a b s t Ha Hb Hab _ IH | a b s t Hab Hf].
    + reflexivity.
    + cbn [isASCII] in Hs, Ht.
      apply andb_prop in Hs as [_ Hs]. apply andb_prop in Ht as [_ Ht].
      cbn [lowerASCII]. rewrite Hab, (IH Hs Ht). reflexivity.
    + cbn [isASCII] in Hs, Ht.
      apply andb_prop in Hs as [Ha _]. apply andb_prop in Ht as [Hb _].
      rewrite Ha, Hb in Hab. discriminate Hab.
  - revert t Ht. induction s as [| a s IH]; intros [| b t] Ht E; cbn [lowerASCII] in E;
      try discriminate E.
    + apply same_end.
    + cbn [isASCII] in Hs, Ht.
      apply andb_prop in Hs as [Ha Hs]. apply andb_prop in Ht as [Hb Ht].
      injection E as Hab E. apply same_byte; auto.
Qed.

End CaseFolding.

(* ===================================================================== *)
(** * The filter                                                          *)
(* ===================================================================== *)

Section Filter.

Context {H : Type}.
Variable ParseIP : string -> option Net.IP.
Variable foldRunes : string -> string -> bool.

Local Abbreviation serve := (@ServeHTTP H ParseIP foldRunes).
Local Abbreviation fold := (EqualFold foldRunes).

Lemma allowedLoop_exists (c : string) (l : list string) :
  allowedLoop foldRunes c l = true <-> exists a, In a l /\ fold c a = true.
Proof.
  induction l as [| x l IH]; simpl.
  - split; [discriminate | intros (a & [] & _)].
  - destruct (fold c x) eqn:E.
    + split; [| reflexivity]. intros _. exists x. split; [left; reflexivity | exact E].
    + rewrite IH. split.
      * intros (a & Ha & Hf). exists a. split; [right; exact Ha | exact Hf].
      * intros (a & [<- | Ha] & Hf); [congruence |]. exists a. split; assumption.
Qed.

Lemma blockedLoop_allowedLoop (c : string) (l : list string) :
  blockedLoop foldRunes c l = allowedLoop foldRunes c l.
Proof. induction l as [| x l IH]; simpl; [reflexivity |]. rewrite IH. reflexivity. Qed.

Lemma blockedLoop_exists (c : string) (l : list string) :
  blockedLoop foldRunes c l = true <-> exists a, In a l /\ fold c a = true.
Proof. rewrite blockedLoop_allowedLoop. apply allowedLoop_exists. Qed.

Lemma length_pos_nonempty {A : Type} (l : list A) :
  Nat.ltb 0 (length l) = true <-> l <> [].
Proof.
  destruct l; cbn; split; intros Hx;
    first [reflexivity | discriminate | exfalso; apply Hx; reflexivity].
Qed.

Lemma length_pos_empty {A : Type} (l : list A) :
  Nat.ltb 0 (length l) = false <-> l = [].
Proof.
  destruct l; cbn; split; intros Hx;
    first [reflexivity | discriminate | exfalso; apply Hx; reflexivity].
Qed.

(** The shape of the trace once the address is public and the lookup
    has answered. *)
Lemma serve_looked_up (m : GeoIPMiddleware H) (r : Http.Request) (ip : Net.IP) (c : string) :
  ParseIP (clientHost r) = Some ip ->
  isLocalOrInternalIP ip = false ->
  reader m ip = CountryOk c ->
  serve m r =
    ReaderCountry ip ::
    (let pass := [NextServeHTTP (next m)
                    (if negb (String.eqb c EmptyString) then withCountry r c else r)] in
     if Nat.ltb 0 (length (allowCountries m)) then
       if negb (allowedLoop foldRunes c (allowCountries m)) then
         [ LoggerInfo (logger m) "Request blocked - country not in allow list"
             [ ("country", AStr c); ("ip", AStr (clientHost r));
               ("allowed_countries", AStrs (allowCountries m)) ];
           HttpError "Access denied" Http.StatusForbidden ]
       else pass
     else if Nat.ltb 0 (length (blockCountries m)) then
       if blockedLoop foldRunes c (blockCountries m) then
         [ LoggerInfo (logger m) "Request blocked - country in block list"
             [ ("country", AStr c); ("ip", AStr (clientHost r));
               ("blocked_countries", AStrs (blockCountries m)) ];
           HttpError "Access denied" Http.StatusForbidden ]
       else pass
     else pass).
Proof.
  intros Hp Hl Hr. unfold ServeHTTP, clientHost in *. cbv zeta in *.
  rewrite Hp, Hl, Hr. unfold withCountry. reflexivity.
Qed.

Lemma serve_unparsed (m : GeoIPMiddleware H) (r : Http.Request) :
  ParseIP (clientHost r) = None -> serve m r = [NextServeHTTP (next m) r].
Proof.
  intros Hp. unfold ServeHTTP, clientHost in *. cbv zeta in *. rewrite Hp. reflexivity.
Qed.

Lemma serve_local (m : GeoIPMiddleware H) (r : Http.Request) (ip : Net.IP) :
  ParseIP (clientHost r) = Some ip -> isLocalOrInternalIP ip = true ->
  serve m r = [NextServeHTTP (next m) r].
Proof.
  intros Hp Hl. unfold ServeHTTP, clientHost in *. cbv zeta in *. rewrite Hp, Hl. reflexivity.
Qed.

Lemma serve_lookup_failed (m : GeoIPMiddleware H) (r : Http.Request) (ip : Net.IP)
    (err : string) :
  ParseIP (clientHost r) = Some ip -> isLocalOrInternalIP ip = false ->
  reader m ip = CountryErr err ->
  serve m r = [ReaderCountry ip; NextServeHTTP (next m) r].
Proof.
  intros Hp Hl Hr. unfold ServeHTTP, clientHost in *. cbv zeta in *.
  rewrite Hp, Hl, Hr. reflexivity.
Qed.


Lemma allowedLoop_same (c : string) (l : list string) :
  allowedLoop foldRunes c l = true <-> exists a, In a l /\ sameUpToCase foldRunes c a.
Proof.
  rewrite allowedLoop_exists. split; intros (a & Ha & Hf); exists a; (split; [exact Ha |]);
    apply (EqualFold_same foldRunes); exact Hf.
Qed.

Lemma blockedLoop_same (c : string) (l : list string) :
  blockedLoop foldRunes c l = true <-> exists a, In a l /\ sameUpToCase foldRunes c a.
Proof. rewrite (blockedLoop_allowedLoop c l). apply allowedLoop_same. Qed.

(** C1. For a public address whose lookup answers with the code [c]:
    with a non-empty allow list the request is rejected exactly when
    [c] equals no member of it without regard to case, and the block
    list plays no part; with an empty allow list and a non-empty block
    list it is rejected exactly when [c] equals a member of the block
    list without regard to case; with both lists empty it passes.  A
    request that is not rejected is handed to the next handler.
    Equality without regard to case is [sameUpToCase]; on ASCII text,
    the text of country codes, it is the equality of the lower-case
    forms. *)
Theorem allow_list_takes_precedence
    (m : GeoIPMiddleware H) (r : Http.Request) (ip : Net.IP) (c : string) :
  ParseIP (clientHost r) = Some ip ->
  isLocalOrInternalIP ip = false ->
  reader m ip = CountryOk c ->
  (allowCountries m <> [] ->
     (rejected (serve m r) = true
      <-> ~ exists a, In a (allowCountries m) /\ sameUpToCase foldRunes c a)
     /\ (forall block, serve (withBlockCountries m block) r = serve m r))
  /\ (allowCountries m = [] -> blockCountries m <> [] ->
     (rejected (serve m r) = true
      <-> exists b, In b (blockCountries m) /\ sameUpToCase foldRunes c b))
  /\ (allowCountries m = [] -> blockCountries m = [] -> rejected (serve m r) = false)
  /\ passedOn (serve m r) = negb (rejected (serve m r))
  /\ (forall a, isASCII c = true -> isASCII a = true ->
                (sameUpToCase foldRunes c a <-> lowerASCII c = lowerASCII a)).
Proof.
  intros Hp Hl Hr.
  rewrite (serve_looked_up m r ip c Hp Hl Hr). cbv zeta.
  split; [| split; [| split; [| split]]].
  - intros Hne. apply length_pos_nonempty in Hne. split; [split |].
    + intros Hrej Hex. apply allowedLoop_same in Hex.
      rewrite Hne, Hex in Hrej. discriminate Hrej.
    + intros Hno. rewrite Hne.
      destruct (allowedLoop foldRunes c (allowCountries m)) eqn:E; [| reflexivity].
      exfalso. apply Hno. apply allowedLoop_same. exact E.
    + intros block.
      rewrite (serve_looked_up (withBlockCountries m block) r ip c Hp Hl Hr). cbv zeta.
      cbn [allowCountries logger next withBlockCountries].
      rewrite Hne. reflexivity.
  - intros He Hne. apply length_pos_empty in He. apply length_pos_nonempty in Hne.
    rewrite He, Hne. rewrite <- blockedLoop_same.
    destruct (blockedLoop foldRunes c (blockCountries m));
      cbn; split; intros; congruence.
  - intros He Hb. apply length_pos_empty in He. apply length_pos_empty in Hb.
    rewrite He, Hb. reflexivity.
  - destruct (Nat.ltb 0 (length (allowCountries m)));
      [destruct (allowedLoop foldRunes c (allowCountries m)) |
       destruct (Nat.ltb 0 (length (blockCountries m)));
         [destruct (blockedLoop foldRunes c (blockCountries m)) |]];
      reflexivity.
  - intros a Hc Ha. apply sameUpToCase_ascii; assumption.
Qed.

(** C2. A request whose address parses to a loopback, private or
    link-local address goes to the next handler as it came, whatever
    the two lists hold: the database is not asked, nothing is rejected
    and no annotation is written. *)
Theorem local_addresses_bypass_the_filter
    (m : GeoIPMiddleware H) (r : Http.Request) (ip : Net.IP) :
  ParseIP (clientHost r) = Some ip ->
  isLocalOrInternalIP ip = true ->
  serve m r = [NextServeHTTP (next m) r]
  /\ lookedUp (serve m r) = false
  /\ rejected (serve m r) = false.
Proof.
  intros Hp Hl. rewrite (serve_local m r ip Hp Hl). repeat split.
Qed.

(** C3. When the address does not parse, or it is public and the
    lookup returns an error, the request is not rejected and reaches
    the next handler as it came. *)
Theorem failures_pass_through (m : GeoIPMiddleware H) (r : Http.Request) :
  ParseIP (clientHost r) = None
  \/ (exists ip err, ParseIP (clientHost r) = Some ip
                     /\ isLocalOrInternalIP ip = false
                     /\ reader m ip = CountryErr err) ->
  rejected (serve m r) = false
  /\ answers (serve m r) = [NextServeHTTP (next m) r].
Proof.
  intros [Hp | (ip & err & Hp & Hl & Hr)].
  - rewrite (serve_unparsed m r Hp). split; reflexivity.
  - rewrite (serve_lookup_failed m r ip err Hp Hl Hr). split; reflexivity.
Qed.

Lemma EqualFold_empty (x : string) : fold EmptyString x = true <-> x = EmptyString.
Proof.
  unfold EqualFold. destruct x as [| a x]; cbn.
  - split; reflexivity.
  - split; discriminate.
Qed.

Lemma loop_on_empty_code (l : list string) :
  allowedLoop foldRunes EmptyString l = true <-> In EmptyString l.
Proof.
  rewrite allowedLoop_exists. split.
  - intros (a & Ha & Hf). apply EqualFold_empty in Hf. subst a. exact Ha.
  - intros Hin. exists EmptyString. split; [exact Hin |]. apply EqualFold_empty. reflexivity.
Qed.

Lemma blocked_on_empty_code (l : list string) :
  blockedLoop foldRunes EmptyString l = true <-> In EmptyString l.
Proof. rewrite blockedLoop_allowedLoop. apply loop_on_empty_code. Qed.

(** C6, as amended.  An empty country code matches the members of a
    list that are themselves empty, and no others; with an empty code
    the request that reaches the next handler carries no annotation;
    and a request that passes after a successful lookup carries the
    code under X-GeoIP-Country exactly when the code is not empty. *)
Theorem empty_code_matches_only_empty_entries
    (m : GeoIPMiddleware H) (r : Http.Request) (ip : Net.IP) (c : string) :
  ParseIP (clientHost r) = Some ip ->
  isLocalOrInternalIP ip = false ->
  reader m ip = CountryOk c ->
  (c = EmptyString ->
     (forall x, fold c x = true <-> x = EmptyString)
     /\ (allowCountries m <> [] ->
           (rejected (serve m r) = false <-> In EmptyString (allowCountries m)))
     /\ (allowCountries m = [] -> blockCountries m <> [] ->
           (rejected (serve m r) = true <-> In EmptyString (blockCountries m)))
     /\ (forall h r', In (NextServeHTTP h r') (serve m r) -> r' = r))
  /\ (rejected (serve m r) = false ->
        serve m r = [ReaderCountry ip;
                     NextServeHTTP (next m)
                       (if String.eqb c EmptyString then r else withCountry r c)])
  /\ (c <> EmptyString ->
        Http.Get (Http.Header (withCountry r c)) "X-GeoIP-Country" = c).
Proof.
  intros Hp Hl Hr.
  rewrite (serve_looked_up m r ip c Hp Hl Hr). cbv zeta.
  split; [| split].
  - intros ->. cbn [String.eqb negb].
    split; [exact EqualFold_empty |].
    split; [| split].
    + intros Hne. apply length_pos_nonempty in Hne. rewrite Hne.
      rewrite <- loop_on_empty_code.
      destruct (allowedLoop foldRunes EmptyString (allowCountries m));
        cbn; split; intros; congruence.
    + intros He Hne. apply length_pos_empty in He. apply length_pos_nonempty in Hne.
      rewrite He, Hne. rewrite <- blocked_on_empty_code.
      destruct (blockedLoop foldRunes EmptyString (blockCountries m));
        cbn; split; intros; congruence.
    + intros h r' Hin.
      destruct (Nat.ltb 0 (length (allowCountries m)));
        [destruct (allowedLoop foldRunes EmptyString (allowCountries m)) |
         destruct (Nat.ltb 0 (length (blockCountries m)));
           [destruct (blockedLoop foldRunes EmptyString (blockCountries m)) |]];
        cbn in Hin; intuition congruence.
  - intros Hrej.
    destruct (String.eqb c EmptyString);
    destruct (Nat.ltb 0 (length (allowCountries m)));
      [destruct (allowedLoop foldRunes c (allowCountries m)) |
       destruct (Nat.ltb 0 (length (blockCountries m)));
         [destruct (blockedLoop foldRunes c (blockCountries m)) |] |
       destruct (allowedLoop foldRunes c (allowCountries m)) |
       destruct (Nat.ltb 0 (length (blockCountries m)));
         [destruct (blockedLoop foldRunes c (blockCountries m)) |]];
      cbn in Hrej |- *; first [discriminate Hrej | reflexivity].
  - intros _. unfold withCountry, Http.Get, Http.Set_. cbn [Http.Header].
    rewrite lookup_insert_eq. reflexivity.
Qed.

(** C7. A call either hands the request to the next handler or answers
    it with [http.Error(w, "Access denied", 403)]; it writes nothing
    else to the response, and 403 is the only status it sets. *)
Theorem only_answer_is_403 (m : GeoIPMiddleware H) (r : Http.Request) :
  (rejected (serve m r) = true
   /\ answers (serve m r) = [HttpError "Access denied" 403])
  \/ (rejected (serve m r) = false
      /\ exists r', answers (serve m r) = [NextServeHTTP (next m) r']).
Proof.
  destruct (ParseIP (clientHost r)) as [ip |] eqn:Hp.
  - destruct (isLocalOrInternalIP ip) eqn:Hl.
    + right. rewrite (serve_local m r ip Hp Hl). split; [reflexivity | eexists; reflexivity].
    + destruct (reader m ip) as [c | err] eqn:Hr.
      * rewrite (serve_looked_up m r ip c Hp Hl Hr). cbv zeta.
        destruct (Nat.ltb 0 (length (allowCountries m)));
          [destruct (allowedLoop foldRunes c (allowCountries m)) |
           destruct (Nat.ltb 0 (length (blockCountries m)));
             [destruct (blockedLoop foldRunes c (blockCountries m)) |]];
          cbn;
          first [ left; split; reflexivity
                | right; split; [reflexivity | eexists; reflexivity] ].
      * right. rewrite (serve_lookup_failed m r ip err Hp Hl Hr).
        split; [reflexivity | eexists; reflexivity].
  - right. rewrite (serve_unparsed m r Hp). split; [reflexivity | eexists; reflexivity].
Qed.

End Filter.

(* ===================================================================== *)
(** * Texts and their ports                                               *)
(* ===================================================================== *)

Section HostPort.

Import GoString.

Lemma append_nil (s : string) : EmptyString +:+ s = s.
Proof. reflexivity. Qed.

Lemma append_cons (a : ascii) (h s : string) : String a h +:+ s = String a (h +:+ s).
Proof. reflexivity. Qed.

Lemma append_assoc (h s t : string) : (h +:+ s) +:+ t = h +:+ s +:+ t.
Proof.
  induction h as [| a h IH]; [reflexivity |].
  rewrite !append_cons. f_equal. exact IH.
Qed.

Ltac by_chars h IH :=
  induction h as [| ? h IH]; rewrite ?append_nil, ?append_cons; cbn.

Lemma len_append (h s : string) : len (h +:+ s) = len h + len s.
Proof. unfold len. by_chars h IH; [reflexivity | f_equal; exact IH]. Qed.

Lemma substring_all (s : string) : substring 0 (String.length s) s = s.
Proof. induction s as [| a s IH]; cbn; [reflexivity | f_equal; exact IH]. Qed.

Lemma substring_head (h s : string) : substring 0 (String.length h) (h +:+ s) = h.
Proof.
  by_chars h IH.
  - destruct s; reflexivity.
  - f_equal. exact IH.
Qed.

Lemma substring_skip (h s : string) (n : nat) :
  substring (String.length h) n (h +:+ s) = substring 0 n s.
Proof. by_chars h IH; [reflexivity | exact IH]. Qed.

Lemma from_0 (s : string) : from s 0 = s.
Proof. unfold from, len. rewrite Nat.sub_0_r. apply substring_all. Qed.

Lemma from_append (h s : string) : from (h +:+ s) (len h) = s.
Proof.
  unfold from. rewrite len_append. replace (len h + len s - len h) with (len s) by lia.
  unfold len. rewrite substring_skip. apply substring_all.
Qed.

Lemma slice_head (h s : string) : slice (h +:+ s) 0 (len h) = h.
Proof. unfold slice, len. rewrite Nat.sub_0_r. apply substring_head. Qed.

Lemma IndexByteString_append (h s : string) (c : ascii) :
  IndexByteString (h +:+ s) c =
    match IndexByteString h c with
    | Some i => Some i
    | None => match IndexByteString s c with
              | Some i => Some (len h + i)
              | None => None
              end
    end.
Proof.
  by_chars h IH.
  - destruct (IndexByteString s c); reflexivity.
  - destruct (Ascii.eqb _ c); [reflexivity |]. rewrite IH.
    destruct (IndexByteString h c); [reflexivity |].
    destruct (IndexByteString s c); reflexivity.
Qed.

Lemma LastIndexByteString_append (h s : string) (c : ascii) :
  LastIndexByteString (h +:+ s) c =
    match LastIndexByteString s c with
    | Some i => Some (len h + i)
    | None => LastIndexByteString h c
    end.
Proof.
  by_chars h IH.
  - destruct (LastIndexByteString s c); reflexivity.
  - rewrite IH. destruct (LastIndexByteString s c); reflexivity.
Qed.

Lemma LastIndex_None (s : string) (c : ascii) :
  contains s c = false -> LastIndexByteString s c = None.
Proof.
  unfold contains. induction s as [| a s IH]; cbn; [reflexivity |].
  destruct (Ascii.eqb a c); [discriminate |].
  destruct (IndexByteString s c); [discriminate |].
  intros _. rewrite IH; reflexivity.
Qed.

Lemma contains_append (h s : string) (c : ascii) :
  contains (h +:+ s) c = contains h c || contains s c.
Proof.
  unfold contains. rewrite IndexByteString_append.
  destruct (IndexByteString h c), (IndexByteString s c); reflexivity.
Qed.

Lemma contains_cons (a c : ascii) (s : string) :
  contains (String a s) c = Ascii.eqb a c || contains s c.
Proof.
  unfold contains. cbn. destruct (Ascii.eqb a c); [reflexivity |].
  destruct (IndexByteString s c); reflexivity.
Qed.

Lemma contains_false_index (s : string) (c : ascii) :
  contains s c = false -> IndexByteString s c = None.
Proof. unfold contains. destruct (IndexByteString s c); [discriminate | reflexivity]. Qed.

Lemma plain_parts (s : string) :
  plain s = true ->
  contains s ":" = false /\ contains s "[" = false /\ contains s "]" = false.
Proof.
  unfold plain. intros Hs.
  apply andb_prop in Hs as [Hs H3]. apply andb_prop in Hs as [H1 H2].
  apply negb_true_iff in H1, H2, H3. auto.
Qed.

Lemma bracketFree_parts (s : string) :
  bracketFree s = true -> contains s "[" = false /\ contains s "]" = false.
Proof.
  unfold bracketFree. intros Hs. apply andb_prop in Hs as [H1 H2].
  apply negb_true_iff in H1, H2. auto.
Qed.

Lemma not_bracket_first (h s : string) (c : ascii) :
  contains h "[" = false -> Ascii.eqb c "[" = false ->
  match String.get 0 (h +:+ String c s) with
  | Some x => Ascii.eqb x "["
  | None => false
  end = false.
Proof.
  intros Hh Hc. destruct h as [| a h]; rewrite ?append_nil, ?append_cons; cbn; [exact Hc |].
  rewrite contains_cons in Hh. apply orb_false_elim in Hh as [Ha _]. exact Ha.
Qed.

(** [host:port] splits into its two parts. *)
Lemma SplitHostPort_host_port (h p : string) :
  plain h = true -> plain p = true ->
  NetAddr.SplitHostPort (h +:+ ":" +:+ p) = Some (h, p).
Proof.
  intros Hh Hp.
  apply plain_parts in Hh as (Hh1 & Hh2 & Hh3).
  apply plain_parts in Hp as (Hp1 & Hp2 & Hp3).
  unfold NetAddr.SplitHostPort.
  change (":" +:+ p) with (String ":" p).
  rewrite LastIndexByteString_append. cbn [LastIndexByteString].
  rewrite (LastIndex_None p ":" Hp1). cbn [Ascii.eqb Bool.eqb].
  rewrite (not_bracket_first h p ":" Hh2 eq_refl).
  rewrite Nat.add_0_r, slice_head, Hh1, from_0.
  rewrite !contains_append, !contains_cons, Hh2, Hh3, Hp2, Hp3. cbn [Ascii.eqb Bool.eqb orb].
  change (String ":" p) with (":" +:+ p).
  rewrite <- append_assoc.
  replace (len h + 1) with (len (h +:+ ":")) by (rewrite len_append; reflexivity).
  rewrite from_append. reflexivity.
Qed.


Lemma substring_skip_add (q s : string) (n m : nat) :
  substring (String.length q + n) m (q +:+ s) = substring n m s.
Proof. by_chars q IH; [reflexivity | exact IH]. Qed.

Lemma from_skip (q s : string) (n : nat) : from (q +:+ s) (len q + n) = from s n.
Proof.
  unfold from. rewrite len_append.
  replace (len q + len s - (len q + n)) with (len s - n) by lia.
  apply substring_skip_add.
Qed.

(** [[host]:port] splits into its two parts, the brackets dropped. *)
Lemma SplitHostPort_bracketed (h p : string) :
  bracketFree h = true -> plain p = true ->
  NetAddr.SplitHostPort ("[" +:+ h +:+ "]:" +:+ p) = Some (h, p).
Proof.
  intros Hh Hp.
  apply bracketFree_parts in Hh as (Hh2 & Hh3).
  apply plain_parts in Hp as (Hp1 & Hp2 & Hp3).
  assert (Hfrom1 : from ("[" +:+ h +:+ "]:" +:+ p) 1 = h +:+ "]:" +:+ p).
  { change 1 with (len "[" + 0). rewrite from_skip. apply from_0. }
  assert (Hfromk : from ("[" +:+ h +:+ "]:" +:+ p) (S (len h) + 1) = ":" +:+ p).
  { replace ("[" +:+ h +:+ "]:" +:+ p) with (("[" +:+ h +:+ "]") +:+ ":" +:+ p)
      by (rewrite !append_assoc; reflexivity).
    replace (S (len h) + 1) with (len ("[" +:+ h +:+ "]") + 0)
      by (rewrite !len_append; unfold len; cbn [String.length]; lia).
    rewrite from_skip. apply from_0. }
  assert (Hfromp : from ("[" +:+ h +:+ "]:" +:+ p) (S (len h) + 1 + 1) = p).
  { replace ("[" +:+ h +:+ "]:" +:+ p) with (("[" +:+ h +:+ "]:") +:+ p)
      by (rewrite !append_assoc; reflexivity).
    replace (S (len h) + 1 + 1) with (len ("[" +:+ h +:+ "]:") + 0)
      by (rewrite !len_append; unfold len; cbn [String.length]; lia).
    rewrite from_skip. apply from_0. }
  assert (Hhost : slice ("[" +:+ h +:+ "]:" +:+ p) 1 (S (len h)) = h).
  { unfold slice. replace (S (len h) - 1) with (len h) by lia.
    rewrite append_cons, append_nil. cbn [substring]. apply substring_head. }
  assert (Hlen : Nat.eqb (S (len h) + 1) (len ("[" +:+ h +:+ "]:" +:+ p)) = false).
  { apply Nat.eqb_neq. rewrite !len_append. unfold len. cbn [String.length]. lia. }
  assert (Hlast : LastIndexByteString ("[" +:+ h +:+ "]:" +:+ p) ":" = Some (S (len h) + 1)).
  { replace ("[" +:+ h +:+ "]:" +:+ p) with (("[" +:+ h +:+ "]") +:+ String ":" p)
      by (rewrite !append_assoc; reflexivity).
    rewrite LastIndexByteString_append. cbn [LastIndexByteString].
    rewrite (LastIndex_None p ":" Hp1). cbn [Ascii.eqb Bool.eqb].
    f_equal. rewrite !len_append. unfold len. cbn [String.length]. lia. }
  assert (Hfirst : IndexByteString ("[" +:+ h +:+ "]:" +:+ p) "]" = Some (S (len h))).
  { rewrite append_cons, append_nil. cbn [IndexByteString Ascii.eqb Bool.eqb].
    rewrite IndexByteString_append, (contains_false_index h "]" Hh3).
    cbn. f_equal. f_equal. lia. }
  assert (Hget : String.get 0 ("[" +:+ h +:+ "]:" +:+ p) = Some "["%char) by reflexivity.
  unfold NetAddr.SplitHostPort.
  rewrite Hlast, Hget, Hfirst. cbn [Ascii.eqb Bool.eqb].
  rewrite Hlen, Nat.eqb_refl, Hhost, Hfrom1, Hfromk, Hfromp.
  rewrite !contains_append, !contains_cons, Hh2, Hp2, Hp3.
  reflexivity.
Qed.

(** A text without a colon has no port. *)
Lemma SplitHostPort_no_colon (s : string) :
  contains s ":" = false -> NetAddr.SplitHostPort s = None.
Proof.
  intros Hs. unfold NetAddr.SplitHostPort. rewrite (LastIndex_None s ":" Hs). reflexivity.
Qed.

Lemma colon_before_last (s : string) (c : ascii) (i j : nat) :
  IndexByteString s c = Some i -> LastIndexByteString s c = Some j -> i <> j ->
  contains (substring 0 j s) c = true.
Proof.
  revert i j. induction s as [| a s IH]; intros i j Hi Hj Hne; cbn in Hi, Hj.
  - discriminate Hi.
  - destruct (Ascii.eqb a c) eqn:Ea.
    + injection Hi as <-.
      destruct (LastIndexByteString s c) as [k |]; injection Hj as <-; [| congruence].
      cbn [substring]. rewrite contains_cons, Ea. reflexivity.
    + destruct (IndexByteString s c) as [i' |] eqn:Hi'; [| discriminate Hi].
      injection Hi as <-.
      destruct (LastIndexByteString s c) as [k |] eqn:Hk; [| discriminate Hj].
      injection Hj as <-.
      cbn [substring]. rewrite contains_cons, Ea. cbn [orb].
      apply (IH i' k); [reflexivity | reflexivity | congruence].
Qed.

(** A bare IPv6 address, with colons of its own, is left whole. *)
Lemma SplitHostPort_several_colons (s : string) (i j : nat) :
  String.get 0 s <> Some "["%char ->
  IndexByteString s ":" = Some i -> LastIndexByteString s ":" = Some j -> i <> j ->
  NetAddr.SplitHostPort s = None.
Proof.
  intros Hb Hi Hj Hne. unfold NetAddr.SplitHostPort. rewrite Hj.
  replace (match String.get 0 s with Some c => Ascii.eqb c "[" | None => false end)
    with false.
  - unfold slice. rewrite Nat.sub_0_r, (colon_before_last s ":" i j Hi Hj Hne). reflexivity.
  - destruct (String.get 0 s) as [c |]; [| reflexivity].
    symmetry. apply Ascii.eqb_neq. intros ->. apply Hb. reflexivity.
Qed.

Lemma from_cons (a : ascii) (s : string) (n : nat) : from (String a s) (S n) = from s n.
Proof. reflexivity. Qed.

Lemma eqb_char (a c : ascii) : Ascii.eqb a c = true -> a = c.
Proof. apply Ascii.eqb_eq. Qed.

Lemma LastIndex_None_inv (s : string) (c : ascii) :
  LastIndexByteString s c = None -> contains s c = false.
Proof.
  induction s as [| a s IH]; cbn; [reflexivity |].
  destruct (LastIndexByteString s c); [discriminate |].
  destruct (Ascii.eqb a c) eqn:Ea; [discriminate |].
  intros _. rewrite contains_cons, Ea, IH; reflexivity.
Qed.

(** A text splits at the first occurrence of a byte. *)
Lemma split_at_first (s : string) (c : ascii) (e : nat) :
  IndexByteString s c = Some e ->
  s = substring 0 e s +:+ String c (from s (S e))
  /\ contains (substring 0 e s) c = false.
Proof.
  revert e. induction s as [| a s IH]; intros e He; cbn in He; [discriminate He |].
  destruct (Ascii.eqb a c) eqn:Ea.
  - injection He as <-. apply eqb_char in Ea. subst a.
    rewrite from_cons, from_0. cbn [substring]. split; reflexivity.
  - destruct (IndexByteString s c) as [e' |]; [| discriminate He].
    injection He as <-. destruct (IH e' eq_refl) as [Hs Hc].
    rewrite from_cons. cbn [substring]. rewrite append_cons, contains_cons, Ea, Hc.
    split; [f_equal; exact Hs | reflexivity].
Qed.

(** A text splits at the last occurrence of a byte. *)
Lemma split_at_last (s : string) (c : ascii) (i : nat) :
  LastIndexByteString s c = Some i ->
  s = substring 0 i s +:+ String c (from s (S i))
  /\ from s i = String c (from s (S i))
  /\ contains (from s (S i)) c = false.
Proof.
  revert i. induction s as [| a s IH]; intros i Hi; cbn in Hi; [discriminate Hi |].
  destruct (LastIndexByteString s c) as [k |] eqn:Hk.
  - injection Hi as <-. destruct (IH k eq_refl) as (Hs & Hf & Hc).
    rewrite !from_cons. cbn [substring]. rewrite append_cons.
    split; [f_equal; exact Hs | split; [exact Hf | exact Hc]].
  - destruct (Ascii.eqb a c) eqn:Ea; [| discriminate Hi].
    injection Hi as <-. apply eqb_char in Ea. subst a.
    rewrite from_cons, !from_0. cbn [substring].
    split; [reflexivity | split; [reflexivity | apply LastIndex_None_inv; exact Hk]].
Qed.

Lemma plain_intro (s : string) :
  contains s ":" = false -> contains s "[" = false -> contains s "]" = false ->
  plain s = true.
Proof. intros H1 H2 H3. unfold plain. rewrite H1, H2, H3. reflexivity. Qed.

Lemma SplitHostPort_inv (s h p : string) :
  NetAddr.SplitHostPort s = Some (h, p) ->
  (s = h +:+ ":" +:+ p /\ plain h = true /\ plain p = true)
  \/ (s = "[" +:+ h +:+ "]:" +:+ p /\ bracketFree h = true /\ plain p = true).
Proof.
  unfold NetAddr.SplitHostPort.
  destruct (LastIndexByteString s ":") as [i |] eqn:Hi; [| discriminate].
  destruct (split_at_last s ":" i Hi) as (Hs & Hfi & Hpc).
  destruct (match String.get 0 s with Some c => Ascii.eqb c "[" | None => false end) eqn:Hb.
  - (* [host]:port *)
    destruct s as [| a s1]; [discriminate Hb |]. cbn in Hb. apply eqb_char in Hb. subst a.
    destruct (IndexByteString (String "[" s1) "]") as [e |] eqn:He; [| discriminate].
    destruct (Nat.eqb (e + 1) (len (String "[" s1))); [discriminate |].
    destruct (Nat.eqb_spec (e + 1) i) as [Hei |]; [| discriminate].
    destruct (contains (from (String "[" s1) 1) "[") eqn:H1; [discriminate |].
    destruct (contains (from (String "[" s1) (e + 1)) "]") eqn:H2; [discriminate |].
    intros Hr. injection Hr as <- <-.
    destruct (split_at_first _ _ _ He) as [Hse Hce].
    destruct e as [| e'];
      [cbn in He; destruct (IndexByteString s1 "]"); discriminate He |].
    replace (S e' + 1) with (S (S e')) in * by lia. subst i.
    replace (S (S e') + 1) with (S (S (S e'))) by lia.
    unfold slice. replace (S e' - 1) with e' by lia.
    cbn [substring] in Hse, Hce |- *. rewrite append_cons in Hse.
    rewrite Hfi in Hse, H2. rewrite from_cons, from_0 in H1.
    injection Hse as Hs1. rewrite contains_cons in Hce. cbn in Hce.
    rewrite Hs1 in H1. rewrite contains_append, !contains_cons in H1. cbn in H1.
    apply orb_false_elim in H1 as [Hh1 Hp1].
    rewrite contains_cons in H2. cbn in H2.
    right. split; [| split].
    + rewrite append_cons, append_nil. f_equal. exact Hs1.
    + unfold bracketFree. rewrite Hh1, Hce. reflexivity.
    + apply plain_intro; assumption.
  - (* host:port *)
    destruct (contains (slice s 0 i) ":") eqn:Hh; [discriminate |].
    rewrite from_0.
    destruct (contains s "[") eqn:H1; [discriminate |].
    destruct (contains s "]") eqn:H2; [discriminate |].
    intros Hr. injection Hr as <- <-.
    unfold slice in *. rewrite Nat.sub_0_r in *. rewrite Nat.add_1_r.
    rewrite Hs in H1, H2. rewrite contains_append, contains_cons in H1, H2.
    cbn in H1, H2.
    apply orb_false_elim in H1 as [Hh1 Hp1]. apply orb_false_elim in H2 as [Hh2 Hp2].
    left. split; [exact Hs | split; apply plain_intro; assumption].
Qed.

Lemma SplitHostPort_hostOf (text host : string) :
  hostOf text host ->
  match NetAddr.SplitHostPort text with
  | Some (h, _) => h
  | None => text
  end = host.
Proof.
  intros [h p Hh Hp | h p Hh Hp | s Hs | s i j Hb Hi Hj Hne | s H1 H2].
  - rewrite (SplitHostPort_host_port h p Hh Hp). reflexivity.
  - rewrite (SplitHostPort_bracketed h p Hh Hp). reflexivity.
  - rewrite (SplitHostPort_no_colon s Hs). reflexivity.
  - rewrite (SplitHostPort_several_colons s i j Hb Hi Hj Hne). reflexivity.
  - destruct (NetAddr.SplitHostPort s) as [[h p] |] eqn:E; [| reflexivity].
    exfalso.
    destruct (SplitHostPort_inv s h p E) as [(Hs & Hh & Hp) | (Hs & Hh & Hp)].
    + exact (H1 h p Hh Hp Hs).
    + exact (H2 h p Hh Hp Hs).
Qed.

(** Every text has a host: the one the split returns, or the text itself
    when it is of neither form. *)
Lemma hostOf_total (text : string) :
  hostOf text (match NetAddr.SplitHostPort text with
               | Some (h, _) => h
               | None => text
               end).
Proof.
  destruct (NetAddr.SplitHostPort text) as [[h p] |] eqn:E.
  - destruct (SplitHostPort_inv text h p E) as [(-> & Hh & Hp) | (-> & Hh & Hp)].
    + apply host_port; assumption.
    + apply host_bracketed; assumption.
  - apply host_unsplit; intros h p Hh Hp ->.
    + rewrite (SplitHostPort_host_port h p Hh Hp) in E. discriminate E.
    + rewrite (SplitHostPort_bracketed h p Hh Hp) in E. discriminate E.
Qed.

Lemma originText_total (r : Http.Request) :
  originText r (let v := Http.Get (Http.Header r) "X-Forwarded-For" in
                if String.eqb v EmptyString then Http.RemoteAddr r else v).
Proof.
  cbv zeta. unfold Http.Get.
  change (Http.CanonicalMIMEHeaderKey "X-Forwarded-For") with "X-Forwarded-For".
  destruct (Http.Header r !! "X-Forwarded-For") as [[| v vs] |] eqn:Hh.
  - cbn [String.eqb]. apply origin_peer. left. unfold headerValue. rewrite Hh. reflexivity.
  - destruct (String.eqb_spec v EmptyString) as [-> | Hne].
    + apply origin_peer. right. unfold headerValue. rewrite Hh. reflexivity.
    + apply origin_forwarded; [| exact Hne]. unfold headerValue. rewrite Hh. reflexivity.
  - cbn [String.eqb]. apply origin_peer. left. unfold headerValue. rewrite Hh. reflexivity.
Qed.

Lemma Get_headerValue (r : Http.Request) :
  Http.Get (Http.Header r) "X-Forwarded-For"
  = match headerValue r "X-Forwarded-For" with
    | Some v => v
    | None => EmptyString
    end.
Proof.
  unfold Http.Get, headerValue.
  change (Http.CanonicalMIMEHeaderKey "X-Forwarded-For") with "X-Forwarded-For".
  destruct (Http.Header r !! "X-Forwarded-For") as [[| v vs] |]; reflexivity.
Qed.

(** The text handed to the parser is the origin text without its port. *)
Lemma clientHost_origin (r : Http.Request) (text host : string) :
  originText r text -> hostOf text host -> clientHost r = host.
Proof.
  intros Ho Hh. unfold clientHost. cbv zeta. rewrite Get_headerValue.
  destruct Ho as [v Hv Hne | [Hn | He]].
  - rewrite Hv. apply String.eqb_neq in Hne. rewrite Hne.
    apply SplitHostPort_hostOf. exact Hh.
  - rewrite Hn. cbn [String.eqb]. apply SplitHostPort_hostOf. exact Hh.
  - rewrite He. cbn [String.eqb]. apply SplitHostPort_hostOf. exact Hh.
Qed.

End HostPort.

(** C8. For every request the address the filter works on comes from
    the forwarding header when the request carries a non-empty one and
    from the peer address otherwise, and the port of that text is
    stripped before parsing.  Every request has such an origin text and
    every text a host (the text without its port, or the whole text when
    it has no port to strip); with [host] so determined, the request
    goes straight on when [host] does not parse or parses to a local
    address, and the database is asked about the parsed address
    otherwise. *)
Theorem address_comes_from_the_origin {H : Type}
    (ParseIP : string -> option Net.IP) (foldRunes : string -> string -> bool)
    (m : GeoIPMiddleware H) (r : Http.Request) :
  (exists text host, originText r text /\ hostOf text host)
  /\ (forall text host,
        originText r text ->
        hostOf text host ->
        match ParseIP host with
        | None => ServeHTTP ParseIP foldRunes m r = [NextServeHTTP (next m) r]
        | Some ip =>
            if isLocalOrInternalIP ip
            then ServeHTTP ParseIP foldRunes m r = [NextServeHTTP (next m) r]
            else exists rest, ServeHTTP ParseIP foldRunes m r = ReaderCountry ip :: rest
        end).
Proof.
  split.
  - eexists. eexists. split; [apply originText_total | apply hostOf_total].
  - intros text host Ho Hh. rewrite <- (clientHost_origin r text host Ho Hh).
    destruct (ParseIP (clientHost r)) as [ip |] eqn:Hp.
    + destruct (isLocalOrInternalIP ip) eqn:Hl.
      * apply (serve_local ParseIP foldRunes m r ip Hp Hl).
      * destruct (reader m ip) as [c | err] eqn:Hr.
        -- rewrite (serve_looked_up ParseIP foldRunes m r ip c Hp Hl Hr). eexists. reflexivity.
        -- rewrite (serve_lookup_failed ParseIP foldRunes m r ip err Hp Hl Hr).
           eexists. reflexivity.
    + apply (serve_unparsed ParseIP foldRunes m r Hp).
Qed.

(* ===================================================================== *)
(** * The chain                                                           *)
(* ===================================================================== *)

Section Chain.

Context {Cache URL : Type}.
Variable Abs : string -> option string.
Variable geoip2_Open : string -> OpenResult.

Local Abbreviation build := (@NewHandler Cache URL Abs geoip2_Open).

(** C5, as amended.  The chain is, from the outside in: the logging
    layer when requests are logged; the country filter when it is
    enabled and the database opened; the body limit when a maximum is
    set; compression when it is enabled; then, in every chain, the
    request-start instrumentation, the file-serving layer with its
    flag, the cache and the proxy.  The four optional layers are left
    out when they are disabled. *)
Theorem chain_is_nested_in_fixed_order (o : @HandlerOptions Cache URL) :
  layers (fst (build o))
  = (if logRequests o then [LLogging] else [])
    ++ (if geoIP2Enabled o
        then match geoip2_Open (FindGeoIP2Database Abs) with
             | OpenOk _ => [LGeoIP (opt_allowCountries o) (opt_blockCountries o)]
             | OpenErr _ => []
             end
        else [])
    ++ (if Z.ltb 0 (maxRequestBody o) then [LMaxBytes (maxRequestBody o)] else [])
    ++ (if gzipCompressionEnabled o then [LGzip] else [])
    ++ [LRequestStart; LSendfile (xSendfileEnabled o); LCache; LProxy].
Proof.
  unfold NewHandler.
  destruct (logRequests o), (geoIP2Enabled o), (Z.ltb 0 (maxRequestBody o)),
    (gzipCompressionEnabled o);
    try destruct (geoip2_Open (FindGeoIP2Database Abs)); reflexivity.
Qed.

(** C9. When the filter is enabled and the database does not open, the
    chain is the one built with the filter disabled, one warning is
    written, and a chain is returned all the same. *)
Theorem unopened_database_drops_the_filter (o : @HandlerOptions Cache URL) (err : string) :
  geoIP2Enabled o = true ->
  geoip2_Open (FindGeoIP2Database Abs) = OpenErr err ->
  fst (build o) = fst (build (withoutGeoIP2 o))
  /\ snd (build o) =
       [SlogWarn "Failed to open GeoIP2 database. NOT loading the GeoIP2 middleware for IP filtering."
                 [("path", AStr (FindGeoIP2Database Abs)); ("error", AStr err)]]
  /\ snd (build (withoutGeoIP2 o)) = [].
Proof.
  intros Hg Ho. unfold NewHandler. cbn [geoIP2Enabled withoutGeoIP2
    targetUrl badGatewayPage forwardHeaders cache maxCacheableResponseBody
    xSendfileEnabled gzipCompressionEnabled maxRequestBody logRequests].
  rewrite Hg, Ho. repeat split.
Qed.

Lemma findLoop_ext (Abs' : string -> option string) (paths : list string) :
  (forall p, In p paths -> Abs' p = Abs p) -> findLoop Abs' paths = findLoop Abs paths.
Proof.
  induction paths as [| p paths IH]; intros Hext; cbn; [reflexivity |].
  rewrite (Hext p (or_introl eq_refl)), IH; [reflexivity |].
  intros q Hq. apply Hext. right. exact Hq.
Qed.

Lemma findLoop_empty (paths : list string) :
  (forall p a, In p paths -> Abs p = Some a -> a <> EmptyString) ->
  (findLoop Abs paths = EmptyString <-> forall p, In p paths -> Abs p = None).
Proof.
  induction paths as [| p paths IH]; intros Hne; cbn.
  - split; [intros _ q [] | reflexivity].
  - assert (Hne' : forall q a, In q paths -> Abs q = Some a -> a <> EmptyString)
      by (intros q a Hq; apply Hne; right; exact Hq).
    destruct (Abs p) as [a |] eqn:Ha.
    + assert (Hna : a <> EmptyString) by (apply (Hne p a); [left; reflexivity | exact Ha]).
      apply String.eqb_neq in Hna as Hb. rewrite Hb. cbn [negb]. split.
      * intros ->. exfalso. apply Hna. reflexivity.
      * intros Hall. specialize (Hall p (or_introl eq_refl)). congruence.
    + rewrite (IH Hne'). split.
      * intros Hall q [<- | Hq]; [exact Ha | apply Hall; exact Hq].
      * intros Hall q Hq. apply Hall. right. exact Hq.
Qed.

(** C10. The search asks only [filepath.Abs], never the file system:
    provided a resolved path is never the empty text, the resolved
    first candidate is returned whatever the later candidates are, the
    result is fixed by the resolution of the candidates alone, and it
    is empty only when no candidate resolves. *)
Theorem first_candidate_is_returned :
  (forall p a, In p possiblePaths -> Abs p = Some a -> a <> EmptyString) ->
  (forall a rest, Abs "./GeoLite2-Country.mmdb" = Some a ->
                  findLoop Abs ("./GeoLite2-Country.mmdb" :: rest) = a)
  /\ (forall a, Abs "./GeoLite2-Country.mmdb" = Some a -> FindGeoIP2Database Abs = a)
  /\ (forall Abs', (forall p, In p possiblePaths -> Abs' p = Abs p) ->
                   FindGeoIP2Database Abs' = FindGeoIP2Database Abs)
  /\ (FindGeoIP2Database Abs = EmptyString <-> forall p, In p possiblePaths -> Abs p = None).
Proof.
  intros Hne.
  assert (Hfirst : forall a rest, Abs "./GeoLite2-Country.mmdb" = Some a ->
                     findLoop Abs ("./GeoLite2-Country.mmdb" :: rest) = a).
  { intros a rest Ha. cbn [findLoop]. rewrite Ha.
    assert (Hna : a <> EmptyString)
      by (apply (Hne "./GeoLite2-Country.mmdb" a); [left; reflexivity | exact Ha]).
    apply String.eqb_neq in Hna. rewrite Hna. reflexivity. }
  split; [exact Hfirst |]. split; [| split].
  - intros a Ha. apply Hfirst. exact Ha.
  - intros Abs' Hext. apply findLoop_ext. exact Hext.
  - apply findLoop_empty. exact Hne.
Qed.

End Chain.

(* ===================================================================== *)
(** * The statements on concrete requests                                 *)
(* ===================================================================== *)

Lemma allow_list_takes_precedence_witness :
  (Examples.parseIPTable (clientHost Examples.fromPublic) = Some Examples.publicIP
   /\ isLocalOrInternalIP Examples.publicIP = false
   /\ reader (Examples.filter (Examples.readerOf "GB") ["US"] ["GB"]) Examples.publicIP
      = CountryOk "GB"
   /\ reader (Examples.filter (Examples.readerOf "us") ["US"] ["us"]) Examples.publicIP
      = CountryOk "us")
  /\ rejected (Examples.serve (Examples.filter (Examples.readerOf "GB") ["US"] ["GB"])
                 Examples.fromPublic) = true
  /\ rejected (Examples.serve (Examples.filter (Examples.readerOf "us") ["US"] ["us"])
                 Examples.fromPublic) = false
  /\ passedOn (Examples.serve (Examples.filter (Examples.readerOf "us") ["US"] ["us"])
                 Examples.fromPublic) = true.
Proof.
  assert (Hp : Examples.parseIPTable (clientHost Examples.fromPublic) = Some Examples.publicIP)
    by reflexivity.
  assert (Hl : isLocalOrInternalIP Examples.publicIP = false) by reflexivity.
  assert (Hgb : reader (Examples.filter (Examples.readerOf "GB") ["US"] ["GB"])
                  Examples.publicIP = CountryOk "GB") by reflexivity.
  assert (Hus : reader (Examples.filter (Examples.readerOf "us") ["US"] ["us"])
                  Examples.publicIP = CountryOk "us") by reflexivity.
  pose proof (allow_list_takes_precedence Examples.parseIPTable Examples.noRunes
                (Examples.filter (Examples.readerOf "GB") ["US"] ["GB"])
                Examples.fromPublic Examples.publicIP "GB" Hp Hl Hgb)
    as (Hgb_allow & _ & _ & _ & Hgb_ascii).
  pose proof (allow_list_takes_precedence Examples.parseIPTable Examples.noRunes
                (Examples.filter (Examples.readerOf "us") ["US"] ["us"])
                Examples.fromPublic Examples.publicIP "us" Hp Hl Hus)
    as (Hus_allow & _ & _ & Hus_pass & Hus_ascii).
  assert (Hno : rejected (Examples.serve
                            (Examples.filter (Examples.readerOf "us") ["US"] ["us"])
                            Examples.fromPublic) = false).
  { destruct (rejected (Examples.serve (Examples.filter (Examples.readerOf "us") ["US"] ["us"])
                          Examples.fromPublic)) eqn:E; [| reflexivity].
    exfalso. apply (proj1 (proj1 (Hus_allow ltac:(discriminate))) E).
    exists "US". split; [left; reflexivity |].
    apply (Hus_ascii "US" eq_refl eq_refl). reflexivity. }
  split; [repeat split; assumption |].
  split; [| split].
  - apply (proj1 (Hgb_allow ltac:(discriminate))).
    intros (a & [<- | []] & Hsame).
    apply (Hgb_ascii "US" eq_refl eq_refl) in Hsame. discriminate Hsame.
  - exact Hno.
  - unfold Examples.serve in *. rewrite Hus_pass, Hno. reflexivity.
Defined.

Lemma local_addresses_bypass_the_filter_witness :
  Examples.parseIPTable (clientHost Examples.fromPrivate) = Some Examples.privateIP
  /\ isLocalOrInternalIP Examples.privateIP = true
  /\ Examples.serve (Examples.filter (Examples.readerOf "GB") ["US"] ["GB"]) Examples.fromPrivate
     = [NextServeHTTP "downstream" Examples.fromPrivate].
Proof.
  split; [reflexivity |]. split; [reflexivity |].
  apply (local_addresses_bypass_the_filter Examples.parseIPTable Examples.noRunes
           (Examples.filter (Examples.readerOf "GB") ["US"] ["GB"])
           Examples.fromPrivate Examples.privateIP); reflexivity.
Defined.

Lemma failures_pass_through_witness :
  Examples.parseIPTable (clientHost Examples.fromNowhere) = None
  /\ rejected (Examples.serve (Examples.filter Examples.readerFailing ["US"] [])
                 Examples.fromNowhere) = false
  /\ answers (Examples.serve (Examples.filter Examples.readerFailing ["US"] [])
                Examples.fromNowhere)
     = [NextServeHTTP "downstream" Examples.fromNowhere].
Proof.
  split; [reflexivity |].
  apply (failures_pass_through Examples.parseIPTable Examples.noRunes
           (Examples.filter Examples.readerFailing ["US"] []) Examples.fromNowhere).
  left. reflexivity.
Defined.

Lemma empty_code_matches_only_empty_entries_witness :
  Examples.parseIPTable (clientHost Examples.fromPublic) = Some Examples.publicIP
  /\ isLocalOrInternalIP Examples.publicIP = false
  /\ reader (Examples.filter (Examples.readerOf EmptyString) [] ["CN"]) Examples.publicIP
     = CountryOk EmptyString
  /\ (rejected (Examples.serve (Examples.filter (Examples.readerOf EmptyString) [] ["CN"])
                  Examples.fromPublic) = true
      <-> In EmptyString ["CN"])
  /\ Examples.serve (Examples.filter (Examples.readerOf EmptyString) [] ["CN"])
       Examples.fromPublic
     = [ReaderCountry Examples.publicIP; NextServeHTTP "downstream" Examples.fromPublic].
Proof.
  assert (Hp : Examples.parseIPTable (clientHost Examples.fromPublic) = Some Examples.publicIP)
    by reflexivity.
  assert (Hl : isLocalOrInternalIP Examples.publicIP = false) by reflexivity.
  assert (Hr : reader (Examples.filter (Examples.readerOf EmptyString) [] ["CN"])
                 Examples.publicIP
               = CountryOk EmptyString) by reflexivity.
  pose proof (empty_code_matches_only_empty_entries Examples.parseIPTable Examples.noRunes
                (Examples.filter (Examples.readerOf EmptyString) [] ["CN"])
                Examples.fromPublic Examples.publicIP EmptyString Hp Hl Hr)
    as (Hempty & Hpass & _).
  destruct (Hempty eq_refl) as (_ & _ & Hblock & _).
  split; [exact Hp |]. split; [exact Hl |]. split; [exact Hr |].
  split; [apply Hblock; [reflexivity | discriminate] | apply Hpass; reflexivity].
Defined.

Lemma address_comes_from_the_origin_witness :
  originText Examples.viaBalancer "203.0.113.1:8080"
  /\ hostOf "203.0.113.1:8080" "203.0.113.1"
  /\ exists rest,
       Examples.serve (Examples.filter (Examples.readerOf "US") ["US"] []) Examples.viaBalancer
       = ReaderCountry Examples.publicIP :: rest.
Proof.
  assert (Ho : originText Examples.viaBalancer "203.0.113.1:8080")
    by (apply origin_forwarded; [reflexivity | discriminate]).
  assert (Hh : hostOf "203.0.113.1:8080" "203.0.113.1")
    by (apply (host_port "203.0.113.1" "8080"); reflexivity).
  split; [exact Ho |]. split; [exact Hh |].
  exact (proj2 (address_comes_from_the_origin Examples.parseIPTable Examples.noRunes
                  (Examples.filter (Examples.readerOf "US") ["US"] []) Examples.viaBalancer)
           "203.0.113.1:8080" "203.0.113.1" Ho Hh).
Defined.

Lemma unopened_database_drops_the_filter_witness :
  geoIP2Enabled (Examples.options false true true) = true
  /\ Examples.openFails (FindGeoIP2Database (Examples.absIn "/app")) = OpenErr "no such file"
  /\ fst (NewHandler (Examples.absIn "/app") Examples.openFails
            (Examples.options false true true))
     = fst (NewHandler (Examples.absIn "/app") Examples.openFails
              (withoutGeoIP2 (Examples.options false true true)))
  /\ snd (NewHandler (Examples.absIn "/app") Examples.openFails
            (Examples.options false true true))
     = [SlogWarn "Failed to open GeoIP2 database. NOT loading the GeoIP2 middleware for IP filtering."
                 [("path", AStr (FindGeoIP2Database (Examples.absIn "/app")));
                  ("error", AStr "no such file")]]
  /\ snd (NewHandler (Examples.absIn "/app") Examples.openFails
            (withoutGeoIP2 (Examples.options false true true))) = [].
Proof.
  split; [reflexivity |]. split; [reflexivity |].
  apply (unopened_database_drops_the_filter (Examples.absIn "/app") Examples.openFails
           (Examples.options false true true) "no such file"); reflexivity.
Defined.

Lemma first_candidate_is_returned_witness :
  (forall p a, In p possiblePaths -> Examples.absIn "/app" p = Some a -> a <> EmptyString)
  /\ FindGeoIP2Database (Examples.absIn "/app") = "/app/GeoLite2-Country.mmdb".
Proof.
  assert (Hne : forall p a, In p possiblePaths -> Examples.absIn "/app" p = Some a ->
                            a <> EmptyString).
  { intros p a _ Ha. unfold Examples.absIn in Ha. injection Ha as <-. discriminate. }
  split; [exact Hne |].
  apply (proj1 (proj2 (first_candidate_is_returned (Examples.absIn "/app") Hne))).
  reflexivity.
Defined.

(** C5, as the specification words it, fails: with compression as the
    only optional layer the compression layer is outermost and the
    instrumentation sits inside it, and the file-serving layer is in the
    chain although it is disabled. *)
Lemma instrumentation_is_not_outermost :
  layers (fst (NewHandler (Examples.absIn "/app") Examples.openFails
                 (Examples.options true false false)))
  = [LGzip; LRequestStart; LSendfile false; LCache; LProxy]
  /\ claimedLayers false (Examples.options true false false)
     = [LRequestStart; LGzip; LCache; LProxy]
  /\ layers (fst (NewHandler (Examples.absIn "/app") Examples.openFails
                    (Examples.options true false false)))
     <> claimedLayers false (Examples.options true false false).
Proof.
  split; [reflexivity |]. split; [reflexivity |]. discriminate.
Qed.

(** C6, as the specification words it, fails: an empty code returned by
    a successful lookup matches an empty member of the block list, and
    the request is rejected. *)
Lemma empty_code_matches_empty_entry :
  reader (Examples.filter (Examples.readerOf EmptyString) [] [EmptyString]) Examples.publicIP
  = CountryOk EmptyString
  /\ EqualFold Examples.noRunes EmptyString EmptyString = true
  /\ Examples.serve (Examples.filter (Examples.readerOf EmptyString) [] [EmptyString])
       Examples.fromPublic
     = [ ReaderCountry Examples.publicIP;
         LoggerInfo slog_Default "Request blocked - country in block list"
           [ ("country", AStr EmptyString); ("ip", AStr "203.0.113.1");
             ("blocked_countries", AStrs [EmptyString]) ];
         HttpError "Access denied" 403 ].
Proof. repeat split. Qed.

(* ===================================================================== *)
(** * The cases of the repository's tests                                 *)
(* ===================================================================== *)

(** The table of [TestIsLocalOrInternalIP], each address in the bytes
    [net.ParseIP] returns for it; the unparseable text is the nil slice. *)
Example test_table_of_the_classifier :
  map isLocalOrInternalIP
    [ Net.IPv4 x7f x00 x00 x01;  Net.IPv4 x7f x01 x01 x01;  Net.IPv6loopback;
      Net.IPv4 x0a x00 x00 x01;  Net.IPv4 xc0 xa8 x01 x01;  Net.IPv4 xac x10 x00 x01;
      Net.IPv4 xac x1f xff xff;  Net.IPv4 xa9 xfe x01 x01;  Net.IPv4 xcb x00 x71 x01;
      Net.IPv4 x08 x08 x08 x08;  [] ]
  = [true; true; true; true; true; true; true; true; false; false; false].
Proof. reflexivity. Qed.

Example split_examples :
  NetAddr.SplitHostPort "127.0.0.1:12345" = Some ("127.0.0.1", "12345")
  /\ NetAddr.SplitHostPort "[::1]:80" = Some ("::1", "80")
  /\ NetAddr.SplitHostPort "::1" = None
  /\ NetAddr.SplitHostPort "10.0.0.1" = None
  /\ NetAddr.SplitHostPort "[::1]" = None.
Proof. repeat split. Qed.

Example canonical_keys :
  Http.CanonicalMIMEHeaderKey "X-GeoIP-Country" = "X-Geoip-Country"
  /\ Http.CanonicalMIMEHeaderKey "X-Forwarded-For" = "X-Forwarded-For".
Proof. split; reflexivity. Qed.

Example fold_examples :
  GoString.EqualFold Examples.noRunes "us" "US" = true
  /\ GoString.EqualFold Examples.noRunes "US" "USA" = false
  /\ GoString.EqualFold Examples.noRunes "[S" "{S" = false.
Proof. repeat split. Qed.

(** The two examples that close section 8 of the specification. *)
Example rejected_outside_the_allow_list :
  Examples.serve (Examples.filter (Examples.readerOf "GB") ["US"] []) Examples.fromPublic
  = [ ReaderCountry Examples.publicIP;
      LoggerInfo slog_Default "Request blocked - country not in allow list"
        [ ("country", AStr "GB"); ("ip", AStr "203.0.113.1");
          ("allowed_countries", AStrs ["US"]) ];
      HttpError "Access denied" 403 ].
Proof. reflexivity. Qed.

Example private_address_passes :
  Examples.serve (Examples.filter (Examples.readerOf "GB") ["US"] []) Examples.fromPrivate
  = [NextServeHTTP "downstream" Examples.fromPrivate].
Proof. reflexivity. Qed.

(* ===================================================================== *)
(** * Further properties of the classifier                                *)
(* ===================================================================== *)

Section ClassifierBounds.

Ltac byte_tests :=
  repeat (cbn; try reflexivity;
          match goal with
          | |- context [N.eqb ?x ?y] => destruct (N.eqb x y)
          | |- context [Byte.eqb ?x ?y] => destruct (Byte.eqb x y)
          | |- context [N.leb ?x ?y] => destruct (N.leb x y)
          end).

Lemma checked_len4 (a b c d : byte) :
  Checked.isLocalOrInternalIP [a; b; c; d] = Some (isLocalOrInternalIP [a; b; c; d]).
Proof.
  unfold Checked.isLocalOrInternalIP, isLocalOrInternalIP, Checked.IsLoopback, Net.IsLoopback,
    Checked.To4, Net.To4, Checked.Equal, Net.Equal, Checked.index, Net.idx,
    Checked.slice, Checked.sliceFrom, Checked.andThen, Checked.bind.
  byte_tests.
Qed.

Lemma checked_len16 (b0 b1 b2 b3 b4 b5 b6 b7 b8 b9 b10 b11 b12 b13 b14 b15 : byte) :
  let ip := [b0; b1; b2; b3; b4; b5; b6; b7; b8; b9; b10; b11; b12; b13; b14; b15] in
  Checked.isLocalOrInternalIP ip = Some (isLocalOrInternalIP ip).
Proof.
  intros ip. subst ip.
  unfold Checked.isLocalOrInternalIP, isLocalOrInternalIP, Checked.IsLoopback, Net.IsLoopback,
    Checked.To4, Net.To4, Checked.Equal, Net.Equal, Checked.index, Net.idx,
    Checked.slice, Checked.sliceFrom, Checked.andThen, Checked.bind.
  byte_tests.
Qed.

(** X1. The classifier never reads past the end of a slice: with every
    index and slice bound checked as the Go runtime checks it, the
    function returns, and returns what the unchecked reading returns. *)
Theorem classifier_stays_in_bounds (ip : Net.IP) :
  Checked.isLocalOrInternalIP ip = Some (isLocalOrInternalIP ip).
Proof.
  destruct ip as [|b0 ip]; [reflexivity|].
  destruct ip as [|b1 ip]; [reflexivity|].
  destruct ip as [|b2 ip]; [reflexivity|].
  destruct ip as [|b3 ip]; [reflexivity|].
  destruct ip as [|b4 ip]; [apply checked_len4|].
  do 11 (destruct ip as [|? ip]; [reflexivity|]).
  destruct ip as [|? ip]; [apply checked_len16|].
  reflexivity.
Qed.

End ClassifierBounds.

(** X2. An IPv4 address is classified the same in its 4-byte form and in
    the 16-byte form [net.ParseIP] returns, and its last two octets play
    no part. *)
Theorem ipv4_forms_agree (a b c d : byte) :
  isLocalOrInternalIP (Net.IPv4 a b c d) = isLocalOrInternalIP [a; b; c; d]
  /\ isLocalOrInternalIP [a; b; c; d] = isLocalOrInternalIP [a; b; x00; x00].
Proof.
  unfold isLocalOrInternalIP, Net.IsLoopback, Net.To4, Net.Equal, Net.idx, Net.IPv4.
  split; cbn;
    repeat (try reflexivity;
            match goal with
            | |- context [N.eqb ?x ?y] => destruct (N.eqb x y)
            | |- context [N.leb ?x ?y] => destruct (N.leb x y)
            | |- context [Byte.eqb ?x ?y] => destruct (Byte.eqb x y)
            end; cbn).
Qed.

Lemma bytes_Equal_eq (a b : Net.IP) : Net.bytes_Equal a b = true -> a = b.
Proof.
  revert b. induction a as [| x a IH]; intros [| y b] Hab; cbn in Hab;
    try discriminate; [reflexivity |].
  apply andb_prop in Hab as [Hxy Hab].
  apply Byte.byte_dec_bl in Hxy. subst y. f_equal. apply IH. exact Hab.
Qed.

(** X3. The test against [net.IPv6loopback] at line 135 never decides:
    an address equal to the IPv6 loopback has already been accepted by
    [ip.IsLoopback()] at line 130. *)
Theorem second_loopback_test_is_subsumed (ip : Net.IP) :
  Net.Equal ip Net.IPv6loopback = true -> Net.IsLoopback ip = true.
Proof.
  intros He.
  assert (Hip : ip = Net.IPv6loopback).
  { unfold Net.Equal in He.
    destruct (Nat.eqb (length ip) (length Net.IPv6loopback)).
    - apply bytes_Equal_eq. exact He.
    - destruct (Nat.eqb (length ip) Net.IPv4len); cbn in He; [discriminate He |].
      destruct (Nat.eqb (length ip) Net.IPv6len); cbn in He; discriminate He. }
  subst ip. reflexivity.
Qed.

(* ===================================================================== *)
(** * Which texts lose a port                                             *)
(* ===================================================================== *)

(** X4. [net.SplitHostPort] succeeds on exactly two kinds of text:
    [host:port] with no colon or square bracket in either part, and
    [[host]:port] with no square bracket in the host and no colon or
    square bracket in the port; it returns the two parts.  Every other
    text reaches the parser whole. *)
Theorem port_is_split_off_exactly (s h p : string) :
  NetAddr.SplitHostPort s = Some (h, p)
  <-> (s = h +:+ ":" +:+ p /\ plain h = true /\ plain p = true)
      \/ (s = "[" +:+ h +:+ "]:" +:+ p /\ bracketFree h = true /\ plain p = true).
Proof.
  split; [apply SplitHostPort_inv |].
  intros [(-> & Hh & Hp) | (-> & Hh & Hp)].
  - apply SplitHostPort_host_port; assumption.
  - apply SplitHostPort_bracketed; assumption.
Qed.

(* ===================================================================== *)
(** * Further properties of the filter                                    *)
(* ===================================================================== *)

Section FilterMore.

Context {H : Type}.
Variable ParseIP : string -> option Net.IP.
Variable foldRunes : string -> string -> bool.

Local Abbreviation serve := (@ServeHTTP H ParseIP foldRunes).

Lemma serve_shape (m : GeoIPMiddleware H) (r : Http.Request) : Shape ParseIP m r (serve m r).
Proof.
  destruct (ParseIP (clientHost r)) as [ip |] eqn:Hp.
  - destruct (isLocalOrInternalIP ip) eqn:Hl.
    + rewrite (serve_local ParseIP foldRunes m r ip Hp Hl). eapply shape_local; eassumption.
    + destruct (reader m ip) as [c | err] eqn:Hr.
      * rewrite (serve_looked_up ParseIP foldRunes m r ip c Hp Hl Hr). cbv zeta.
        destruct (Nat.ltb 0 (length (allowCountries m))) eqn:Ha.
        -- apply length_pos_nonempty in Ha.
           destruct (allowedLoop foldRunes c (allowCountries m)); cbn [negb].
           ++ apply (shape_passed ParseIP m r ip c Hp Hl Hr).
           ++ apply (shape_rejected ParseIP m r ip c _ _ _ Hp Hl Hr). left. auto.
        -- apply length_pos_empty in Ha.
           destruct (Nat.ltb 0 (length (blockCountries m))) eqn:Hb.
           ++ apply length_pos_nonempty in Hb.
              destruct (blockedLoop foldRunes c (blockCountries m)).
              ** apply (shape_rejected ParseIP m r ip c _ _ _ Hp Hl Hr). right. auto.
              ** apply (shape_passed ParseIP m r ip c Hp Hl Hr).
           ++ apply (shape_passed ParseIP m r ip c Hp Hl Hr).
      * rewrite (serve_lookup_failed ParseIP foldRunes m r ip err Hp Hl Hr).
        eapply shape_failed; eassumption.
  - rewrite (serve_unparsed ParseIP foldRunes m r Hp). apply shape_unparsed. exact Hp.
Qed.


(** X5. The database is asked exactly once, about the parsed address,
    when that address is not local, and is not asked at all when the
    address is local or does not parse. *)
Theorem database_is_asked_once_about_public_addresses
    (m : GeoIPMiddleware H) (r : Http.Request) :
  List.filter isReaderCountry (serve m r)
  = match ParseIP (clientHost r) with
    | Some ip => if isLocalOrInternalIP ip then [] else [ReaderCountry ip]
    | None => []
    end.
Proof.
  destruct (serve_shape m r) as [Hp | ip Hp Hl | ip err Hp Hl Hr | ip c Hp Hl Hr
                                | ip c msg key l Hp Hl Hr Hc];
    rewrite Hp; try rewrite Hl; reflexivity.
Qed.

(** X6. A record is written to the logger exactly when the request is
    rejected, and the trace of a rejection is the lookup, one record
    that names the code, the text the address was parsed from and the
    list that decided, then the 403: the allow list when it is not
    empty, the block list otherwise. *)
Theorem every_rejection_is_logged (m : GeoIPMiddleware H) (r : Http.Request) :
  logged (serve m r) = rejected (serve m r)
  /\ (rejected (serve m r) = true ->
      exists ip c msg key l,
        ParseIP (clientHost r) = Some ip
        /\ reader m ip = CountryOk c
        /\ (msg = "Request blocked - country not in allow list" /\ key = "allowed_countries"
            /\ l = allowCountries m /\ l <> []
            \/ msg = "Request blocked - country in block list" /\ key = "blocked_countries"
               /\ l = blockCountries m /\ allowCountries m = [] /\ l <> [])
        /\ serve m r
           = [ReaderCountry ip;
              LoggerInfo (logger m) msg
                [("country", AStr c); ("ip", AStr (clientHost r)); (key, AStrs l)];
              HttpError "Access denied" 403]).
Proof.
  destruct (serve_shape m r) as [Hp | ip Hp Hl | ip err Hp Hl Hr | ip c Hp Hl Hr
                                | ip c msg key l Hp Hl Hr Hc];
    (split; [reflexivity |]); cbn; try discriminate.
  intros _. exists ip, c, msg, key, l. auto.
Qed.

Lemma annotation_key : Http.CanonicalMIMEHeaderKey "X-GeoIP-Country" = "X-Geoip-Country".
Proof. reflexivity. Qed.

Lemma forwarded_key : Http.CanonicalMIMEHeaderKey "X-Forwarded-For" = "X-Forwarded-For".
Proof. reflexivity. Qed.

(** X7. The request the next handler receives is the incoming one but
    for the header X-Geoip-Country: the peer address and every other
    header are as they came, and the handler called is [m.next]. *)
Theorem only_the_annotation_is_written
    (m : GeoIPMiddleware H) (r r' : Http.Request) (h : H) :
  In (NextServeHTTP h r') (serve m r) ->
  h = next m
  /\ Http.RemoteAddr r' = Http.RemoteAddr r
  /\ (forall k, k <> "X-Geoip-Country" -> Http.Header r' !! k = Http.Header r !! k).
Proof.
  intros Hin.
  destruct (serve_shape m r) as [Hp | ip Hp Hl | ip err Hp Hl Hr | ip c Hp Hl Hr
                                | ip c msg key l Hp Hl Hr Hc];
    cbn in Hin;
    repeat match goal with
           | Hx : _ \/ _ |- _ => destruct Hx as [Hx | Hx]
           | Hx : False |- _ => destruct Hx
           end;
    try discriminate; injection Hin as <- <-; try (repeat split; reflexivity).
  destruct (String.eqb c EmptyString); cbn [negb]; repeat split.
  intros k Hk. unfold withCountry, Http.Set_. cbn [Http.Header].
  rewrite annotation_key. apply lookup_insert_ne. congruence.
Qed.

(** X8. What the next handler reads under X-GeoIP-Country is the code
    the lookup returned when that code is not empty; in every other case
    (local address, unparseable address, failed lookup, empty code) it is
    whatever the incoming request carried under that name. *)
Theorem annotation_read_downstream
    (m : GeoIPMiddleware H) (r r' : Http.Request) (h : H) :
  In (NextServeHTTP h r') (serve m r) ->
  Http.Get (Http.Header r') "X-GeoIP-Country"
  = match ParseIP (clientHost r) with
    | Some ip =>
        if isLocalOrInternalIP ip then Http.Get (Http.Header r) "X-GeoIP-Country"
        else match reader m ip with
             | CountryOk c =>
                 if String.eqb c EmptyString
                 then Http.Get (Http.Header r) "X-GeoIP-Country"
                 else c
             | CountryErr _ => Http.Get (Http.Header r) "X-GeoIP-Country"
             end
    | None => Http.Get (Http.Header r) "X-GeoIP-Country"
    end.
Proof.
  intros Hin.
  destruct (serve_shape m r) as [Hp | ip Hp Hl | ip err Hp Hl Hr | ip c Hp Hl Hr
                                | ip c msg key l Hp Hl Hr Hc];
    cbn in Hin;
    repeat match goal with
           | Hx : _ \/ _ |- _ => destruct Hx as [Hx | Hx]
           | Hx : False |- _ => destruct Hx
           end;
    try discriminate; injection Hin as <- <-;
    rewrite Hp; try rewrite Hl; try rewrite Hr; try reflexivity.
  destruct (String.eqb c EmptyString); cbn [negb]; [reflexivity |].
  unfold withCountry, Http.Get, Http.Set_. cbn [Http.Header].
  rewrite lookup_insert_eq. reflexivity.
Qed.

Lemma clientHost_withCountry (r : Http.Request) (c : string) :
  clientHost (withCountry r c) = clientHost r.
Proof.
  unfold clientHost, withCountry, Http.Get, Http.Set_. cbn [Http.Header Http.RemoteAddr].
  rewrite annotation_key, forwarded_key.
  rewrite lookup_insert_ne by discriminate. reflexivity.
Qed.

Lemma withCountry_twice (r : Http.Request) (c : string) :
  withCountry (withCountry r c) c = withCountry r c.
Proof.
  unfold withCountry, Http.Set_. cbn [Http.Header Http.RemoteAddr].
  rewrite insert_insert_eq. reflexivity.
Qed.

(** X9. The filter is idempotent on what it lets through: run again on
    the request it handed to the next handler, it produces the same
    trace, so a second filter with the same configuration further down
    the chain decides the same and annotates the same. *)
Theorem filter_is_idempotent (m : GeoIPMiddleware H) (r r' : Http.Request) (h : H) :
  In (NextServeHTTP h r') (serve m r) -> serve m r' = serve m r.
Proof.
  intros Hin.
  destruct (ParseIP (clientHost r)) as [ip |] eqn:Hp.
  - destruct (isLocalOrInternalIP ip) eqn:Hl.
    + rewrite (serve_local ParseIP foldRunes m r ip Hp Hl) in Hin.
      destruct Hin as [Hin | []]. injection Hin as <- <-. reflexivity.
    + destruct (reader m ip) as [c | err] eqn:Hr.
      * destruct (String.eqb_spec c EmptyString) as [-> | Hc].
        -- rewrite (serve_looked_up ParseIP foldRunes m r ip EmptyString Hp Hl Hr) in Hin.
           cbv zeta in Hin. cbn [String.eqb negb] in Hin.
           destruct (Nat.ltb 0 (length (allowCountries m)));
             [destruct (allowedLoop foldRunes EmptyString (allowCountries m)) |
              destruct (Nat.ltb 0 (length (blockCountries m)));
                [destruct (blockedLoop foldRunes EmptyString (blockCountries m)) |]];
             cbn in Hin;
             repeat match goal with
                    | Hx : _ \/ _ |- _ => destruct Hx as [Hx | Hx]
                    | Hx : False |- _ => destruct Hx
                    end;
             try discriminate; injection Hin as <- <-; reflexivity.
        -- assert (Hr' : r' = withCountry r c).
           { rewrite (serve_looked_up ParseIP foldRunes m r ip c Hp Hl Hr) in Hin.
             cbv zeta in Hin. apply String.eqb_neq in Hc. rewrite Hc in Hin.
             cbn [negb] in Hin.
             destruct (Nat.ltb 0 (length (allowCountries m)));
               [destruct (allowedLoop foldRunes c (allowCountries m)) |
                destruct (Nat.ltb 0 (length (blockCountries m)));
                  [destruct (blockedLoop foldRunes c (blockCountries m)) |]];
               cbn in Hin;
               repeat match goal with
                      | Hx : _ \/ _ |- _ => destruct Hx as [Hx | Hx]
                      | Hx : False |- _ => destruct Hx
                      end;
               try discriminate; injection Hin as <- <-; reflexivity. }
           subst r'.
           assert (Hp' : ParseIP (clientHost (withCountry r c)) = Some ip)
             by (rewrite clientHost_withCountry; exact Hp).
           rewrite (serve_looked_up ParseIP foldRunes m r ip c Hp Hl Hr).
           rewrite (serve_looked_up ParseIP foldRunes m (withCountry r c) ip c Hp' Hl Hr).
           rewrite clientHost_withCountry, withCountry_twice.
           apply String.eqb_neq in Hc. rewrite Hc. reflexivity.
      * rewrite (serve_lookup_failed ParseIP foldRunes m r ip err Hp Hl Hr) in Hin.
        destruct Hin as [Hin | [Hin | []]]; [discriminate Hin |].
        injection Hin as <- <-. reflexivity.
  - rewrite (serve_unparsed ParseIP foldRunes m r Hp) in Hin.
    destruct Hin as [Hin | []]. injection Hin as <- <-. reflexivity.
Qed.


Lemma decision_by_host (m : GeoIPMiddleware H) (r1 r2 : Http.Request) :
  clientHost r1 = clientHost r2 ->
  rejected (serve m r1) = rejected (serve m r2)
  /\ List.filter isReaderCountry (serve m r1) = List.filter isReaderCountry (serve m r2)
  /\ List.filter isLoggerInfo (serve m r1) = List.filter isLoggerInfo (serve m r2).
Proof.
  intros E.
  destruct (ParseIP (clientHost r1)) as [ip |] eqn:Hp1.
  - assert (Hp2 : ParseIP (clientHost r2) = Some ip) by (rewrite <- E; exact Hp1).
    destruct (isLocalOrInternalIP ip) eqn:Hl.
    + rewrite (serve_local ParseIP foldRunes m r1 ip Hp1 Hl),
              (serve_local ParseIP foldRunes m r2 ip Hp2 Hl). repeat split.
    + destruct (reader m ip) as [c | err] eqn:Hr.
      * rewrite (serve_looked_up ParseIP foldRunes m r1 ip c Hp1 Hl Hr),
                (serve_looked_up ParseIP foldRunes m r2 ip c Hp2 Hl Hr).
        cbv zeta. rewrite E.
        destruct (Nat.ltb 0 (length (allowCountries m)));
          [destruct (allowedLoop foldRunes c (allowCountries m)) |
           destruct (Nat.ltb 0 (length (blockCountries m)));
             [destruct (blockedLoop foldRunes c (blockCountries m)) |]];
          repeat split.
      * rewrite (serve_lookup_failed ParseIP foldRunes m r1 ip err Hp1 Hl Hr),
                (serve_lookup_failed ParseIP foldRunes m r2 ip err Hp2 Hl Hr). repeat split.
  - assert (Hp2 : ParseIP (clientHost r2) = None) by (rewrite <- E; exact Hp1).
    rewrite (serve_unparsed ParseIP foldRunes m r1 Hp1),
            (serve_unparsed ParseIP foldRunes m r2 Hp2). repeat split.
Qed.

(** X10. Behind a non-empty forwarding header the peer address plays no
    part: the same request from any other peer is parsed from the same
    text, meets the same decision, the same lookup and the same log
    record. *)
Theorem peer_is_ignored_behind_a_forwarding_header
    (m : GeoIPMiddleware H) (r : Http.Request) (addr : string) :
  Http.Get (Http.Header r) "X-Forwarded-For" <> EmptyString ->
  clientHost (withRemoteAddr r addr) = clientHost r
  /\ rejected (serve m (withRemoteAddr r addr)) = rejected (serve m r)
  /\ List.filter isReaderCountry (serve m (withRemoteAddr r addr))
     = List.filter isReaderCountry (serve m r)
  /\ List.filter isLoggerInfo (serve m (withRemoteAddr r addr))
     = List.filter isLoggerInfo (serve m r).
Proof.
  intros Hne.
  assert (E : clientHost (withRemoteAddr r addr) = clientHost r).
  { unfold clientHost, withRemoteAddr. cbn [Http.Header Http.RemoteAddr]. cbv zeta.
    apply String.eqb_neq in Hne. rewrite Hne. reflexivity. }
  split; [exact E | apply decision_by_host; exact E].
Qed.

(** X11. A forwarding header that names a local address opens the
    filter: whatever the peer address and the two lists are, a request
    whose X-Forwarded-For is set to a text whose host part parses to a
    local address goes to the next handler with no lookup. *)
Theorem forwarding_header_naming_a_local_address_passes
    (m : GeoIPMiddleware H) (r : Http.Request) (v host : string) (ip : Net.IP) :
  v <> EmptyString ->
  hostOf v host ->
  ParseIP host = Some ip ->
  isLocalOrInternalIP ip = true ->
  serve m (withForwardedFor r v) = [NextServeHTTP (next m) (withForwardedFor r v)].
Proof.
  intros Hv Hh Hp Hl.
  assert (Ho : originText (withForwardedFor r v) v).
  { apply origin_forwarded; [| exact Hv].
    unfold headerValue, withForwardedFor, Http.Set_. cbn [Http.Header].
    rewrite forwarded_key, lookup_insert_eq. reflexivity. }
  apply (serve_local ParseIP foldRunes m _ ip); [| exact Hl].
  rewrite (clientHost_origin _ v host Ho Hh). exact Hp.
Qed.

Lemma allowedLoop_ext (c : string) (l l' : list string) :
  (forall x, In x l <-> In x l') ->
  allowedLoop foldRunes c l = allowedLoop foldRunes c l'.
Proof.
  intros Hll. apply Bool.eq_iff_eq_true.
  rewrite !(allowedLoop_exists foldRunes).
  split; intros (a & Ha & Hf); exists a; (split; [apply Hll; exact Ha | exact Hf]).
Qed.

Lemma blockedLoop_ext (c : string) (l l' : list string) :
  (forall x, In x l <-> In x l') ->
  blockedLoop foldRunes c l = blockedLoop foldRunes c l'.
Proof.
  intros Hll.
  rewrite (blockedLoop_allowedLoop foldRunes c l), (blockedLoop_allowedLoop foldRunes c l').
  apply allowedLoop_ext. exact Hll.
Qed.

Lemma nonempty_ext {A : Type} (l l' : list A) :
  (forall x, In x l <-> In x l') ->
  Nat.ltb 0 (length l) = Nat.ltb 0 (length l').
Proof.
  intros Hll. destruct l as [| a l], l' as [| b l']; try reflexivity; exfalso.
  - apply (proj2 (Hll b)). left. reflexivity.
  - apply (proj1 (Hll a)). left. reflexivity.
Qed.

(** X12. The two lists are used as sets: lists with the same members, in
    any order and with any repetitions, reject the same requests. *)
Theorem lists_are_used_as_sets
    (m : GeoIPMiddleware H) (r : Http.Request) (allow allow' block block' : list string) :
  (forall x, In x allow <-> In x allow') ->
  (forall x, In x block <-> In x block') ->
  rejected (serve (withLists m allow block) r)
  = rejected (serve (withLists m allow' block') r).
Proof.
  intros Ha Hb.
  destruct (ParseIP (clientHost r)) as [ip |] eqn:Hp.
  - destruct (isLocalOrInternalIP ip) eqn:Hl.
    + rewrite !(serve_local ParseIP foldRunes _ r ip Hp Hl). reflexivity.
    + destruct (reader m ip) as [c | err] eqn:Hr.
      * rewrite (serve_looked_up ParseIP foldRunes (withLists m allow block) r ip c Hp Hl Hr),
                (serve_looked_up ParseIP foldRunes (withLists m allow' block') r ip c Hp Hl Hr).
        cbv zeta. cbn [allowCountries blockCountries logger next withLists].
        rewrite (nonempty_ext allow allow' Ha), (nonempty_ext block block' Hb).
        rewrite (allowedLoop_ext c allow allow' Ha).
        rewrite (blockedLoop_ext c block block' Hb).
        destruct (Nat.ltb 0 (length allow'));
          [destruct (allowedLoop foldRunes c allow') |
           destruct (Nat.ltb 0 (length block'));
             [destruct (blockedLoop foldRunes c block') |]];
          reflexivity.
      * rewrite (serve_lookup_failed ParseIP foldRunes (withLists m allow block) r ip err
                   Hp Hl Hr),
                (serve_lookup_failed ParseIP foldRunes (withLists m allow' block') r ip err
                   Hp Hl Hr).
        reflexivity.
  - rewrite !(serve_unparsed ParseIP foldRunes _ r Hp). reflexivity.
Qed.

Lemma EqualFold_ascii (s t : string) :
  isASCII s = true -> isASCII t = true ->
  EqualFold foldRunes s t = String.eqb (lowerASCII s) (lowerASCII t).
Proof.
  unfold EqualFold. revert t.
  induction s as [| a s IH]; intros [| b t] Hs Ht; try reflexivity.
  cbn [isASCII] in Hs, Ht.
  apply andb_prop in Hs as [Ha Hs]. apply andb_prop in Ht as [Hb Ht].
  destruct (fold_chars a b Ha Hb) as [Hrune Hfold].
  cbn [GoString.EqualFold lowerASCII String.eqb]. cbv zeta.
  rewrite Hrune, <- Hfold. unfold foldsTo. cbv zeta.
  destruct (N.eqb (N_of_ascii b) (N_of_ascii a)); cbn [orb].
  - apply IH; assumption.
  - destruct (N.leb 65 (N.min (N_of_ascii a) (N_of_ascii b))
              && N.leb (N.min (N_of_ascii a) (N_of_ascii b)) 90
              && N.eqb (N.max (N_of_ascii a) (N_of_ascii b))
                       (N.min (N_of_ascii a) (N_of_ascii b) + 97 - 65)).
    + apply IH; assumption.
    + reflexivity.
Qed.

(** X13. On ASCII text [strings.EqualFold] is equality of the lower-case
    forms: the rune loop is not entered, and two texts match exactly when
    they have the same length and agree byte by byte up to the case of
    the letters A to Z. *)
Theorem EqualFold_on_ascii_text (s t : string) :
  isASCII s = true -> isASCII t = true ->
  EqualFold foldRunes s t = String.eqb (lowerASCII s) (lowerASCII t).
Proof. apply EqualFold_ascii. Qed.

Lemma lower_char (a : ascii) :
  Http.toLower (Http.toLower a) = Http.toLower a
  /\ isASCIIchar (Http.toLower a) = isASCIIchar a.
Proof. destruct a as [[] [] [] [] [] [] [] []]; split; reflexivity. Qed.

Lemma lowerASCII_idem (s : string) : lowerASCII (lowerASCII s) = lowerASCII s.
Proof.
  induction s as [| a s IH]; cbn; [reflexivity |].
  rewrite (proj1 (lower_char a)), IH. reflexivity.
Qed.

Lemma isASCII_lower (s : string) : isASCII (lowerASCII s) = isASCII s.
Proof.
  induction s as [| a s IH]; cbn; [reflexivity |].
  rewrite (proj2 (lower_char a)), IH. reflexivity.
Qed.

Lemma allowedLoop_lower (c : string) (l : list string) :
  isASCII c = true -> forallb isASCII l = true ->
  allowedLoop foldRunes c (map lowerASCII l) = allowedLoop foldRunes c l.
Proof.
  intros Hc. induction l as [| a l IH]; intros Hl; cbn; [reflexivity |].
  cbn in Hl. apply andb_prop in Hl as [Ha Hl].
  rewrite (EqualFold_ascii c (lowerASCII a) Hc) by (rewrite isASCII_lower; exact Ha).
  rewrite (EqualFold_ascii c a Hc Ha), lowerASCII_idem, (IH Hl). reflexivity.
Qed.

(** X18. The case of the configured codes is immaterial: when the
    database returns ASCII codes and the lists hold ASCII text, the
    lists written in lower case reject the same requests. *)
Theorem case_of_the_lists_is_immaterial
    (m : GeoIPMiddleware H) (r : Http.Request) (allow block : list string) :
  (forall ip c, reader m ip = CountryOk c -> isASCII c = true) ->
  forallb isASCII allow = true ->
  forallb isASCII block = true ->
  rejected (serve (withLists m (map lowerASCII allow) (map lowerASCII block)) r)
  = rejected (serve (withLists m allow block) r).
Proof.
  intros Hrd Ha Hb.
  destruct (ParseIP (clientHost r)) as [ip |] eqn:Hp.
  - destruct (isLocalOrInternalIP ip) eqn:Hl.
    + rewrite !(serve_local ParseIP foldRunes _ r ip Hp Hl). reflexivity.
    + destruct (reader m ip) as [c | err] eqn:Hr.
      * pose proof (Hrd ip c Hr) as Hc.
        rewrite (serve_looked_up ParseIP foldRunes
                   (withLists m (map lowerASCII allow) (map lowerASCII block)) r ip c Hp Hl Hr),
                (serve_looked_up ParseIP foldRunes (withLists m allow block) r ip c Hp Hl Hr).
        cbv zeta. cbn [allowCountries blockCountries logger next withLists].
        rewrite !length_map, (allowedLoop_lower c allow Hc Ha).
        rewrite (blockedLoop_allowedLoop foldRunes c (map lowerASCII block)),
                (blockedLoop_allowedLoop foldRunes c block),
                (allowedLoop_lower c block Hc Hb).
        destruct (Nat.ltb 0 (length allow));
          [destruct (allowedLoop foldRunes c allow) |
           destruct (Nat.ltb 0 (length block));
             [destruct (allowedLoop foldRunes c block) |]];
          reflexivity.
      * rewrite (serve_lookup_failed ParseIP foldRunes
                   (withLists m (map lowerASCII allow) (map lowerASCII block)) r ip err
                   Hp Hl Hr),
                (serve_lookup_failed ParseIP foldRunes (withLists m allow block) r ip err
                   Hp Hl Hr).
        reflexivity.
  - rewrite !(serve_unparsed ParseIP foldRunes _ r Hp). reflexivity.
Qed.

(** X14. The three requests of [TestGeoIPMiddleware_ServeHTTP] read 200
    without a Test-Country header whatever the database and the lists
    are: so does every request whose address is local and that carries
    no X-GeoIP-Country of its own. *)
Theorem local_requests_read_200 (m : GeoIPMiddleware H) (r : Http.Request) (ip : Net.IP) :
  ParseIP (clientHost r) = Some ip ->
  isLocalOrInternalIP ip = true ->
  Http.Get (Http.Header r) "X-GeoIP-Country" = EmptyString ->
  Test.Code (Test.record (serve m r)) = 200%Z
  /\ Http.Get (Test.RecHeader (Test.record (serve m r))) "Test-Country" = EmptyString.
Proof.
  intros Hp Hl Hg. rewrite (serve_local ParseIP foldRunes m r ip Hp Hl).
  cbn [Test.record]. unfold Test.nextHandler. cbv zeta. rewrite Hg. split; reflexivity.
Qed.

(** X15. Behind the filter the test handler reads 403 with the text
    Access denied and a newline exactly when the request is rejected,
    and 200 otherwise; a rejection carries no Test-Country header. *)
Theorem recorder_reads_403_on_rejection (m : GeoIPMiddleware H) (r : Http.Request) :
  Test.Code (Test.record (serve m r)) = (if rejected (serve m r) then 403%Z else 200%Z)
  /\ (if rejected (serve m r)
      then Test.Body (Test.record (serve m r))
           = "Access denied" +:+ String (ascii_of_nat 10) EmptyString
           /\ Http.Get (Test.RecHeader (Test.record (serve m r))) "Test-Country" = EmptyString
      else Test.Body (Test.record (serve m r)) = EmptyString).
Proof.
  destruct (serve_shape m r) as [Hp | ip Hp Hl | ip err Hp Hl Hr | ip c Hp Hl Hr
                                | ip c msg key l Hp Hl Hr Hc];
    cbn; repeat split.
Qed.

End FilterMore.

(* ===================================================================== *)
(** * Header keys                                                         *)
(* ===================================================================== *)

Section HeaderKeys.

Lemma key_table :
  forallb (fun a =>
    forallb (fun b =>
      implb (Ascii.eqb (Http.toLower a) (Http.toLower b))
            (Bool.eqb (Http.validHeaderFieldByte a) (Http.validHeaderFieldByte b)
             && Ascii.eqb (Http.toUpper a) (Http.toUpper b)
             && Bool.eqb (Ascii.eqb a "-") (Ascii.eqb b "-")))
      allChars) allChars = true.
Proof. vm_compute. reflexivity. Qed.

Lemma key_chars (a b : ascii) :
  Http.toLower a = Http.toLower b ->
  Http.validHeaderFieldByte a = Http.validHeaderFieldByte b
  /\ Http.toUpper a = Http.toUpper b
  /\ Ascii.eqb a "-" = Ascii.eqb b "-".
Proof.
  intros Hab. pose proof key_table as Ht.
  rewrite forallb_forall in Ht. specialize (Ht a (in_allChars a)).
  rewrite forallb_forall in Ht. specialize (Ht b (in_allChars b)).
  rewrite Hab, Ascii.eqb_refl in Ht. cbn [implb] in Ht.
  apply andb_prop in Ht as [Ht H3]. apply andb_prop in Ht as [H1 H2].
  apply Bool.eqb_prop in H1, H3. apply Ascii.eqb_eq in H2. auto.
Qed.

Lemma canonical_by_case (k k' : string) :
  lowerASCII k = lowerASCII k' ->
  Http.allValid k = Http.allValid k'
  /\ forall u, Http.canonicalCase u k = Http.canonicalCase u k'.
Proof.
  revert k'. induction k as [| a k IH]; intros [| b k'] E; cbn in E; try discriminate E.
  - split; reflexivity.
  - injection E as Hab E. destruct (IH k' E) as [Hv Hc].
    destruct (key_chars a b Hab) as (H1 & H2 & H3).
    cbn [Http.allValid Http.canonicalCase]. rewrite H1, Hv. split; [reflexivity |].
    intros u. rewrite H2, Hab, H3, (Hc (Ascii.eqb b "-")). reflexivity.
Qed.

(** X19. Header keys are read without regard to case: a value written
    with [Header.Set] under a key of token characters is what
    [Header.Get] returns under any spelling of that key that differs in
    the case of its letters only. *)
Theorem header_written_is_read_in_any_case (h : Http.header) (k k' v : string) :
  Http.allValid k = true ->
  lowerASCII k = lowerASCII k' ->
  Http.CanonicalMIMEHeaderKey k = Http.CanonicalMIMEHeaderKey k'
  /\ Http.Get (Http.Set_ h k v) k' = v.
Proof.
  intros Hv E. destruct (canonical_by_case k k' E) as [Hvv Hc].
  assert (Hk : Http.CanonicalMIMEHeaderKey k = Http.CanonicalMIMEHeaderKey k').
  { unfold Http.CanonicalMIMEHeaderKey. rewrite <- Hvv, Hv. apply Hc. }
  split; [exact Hk |].
  unfold Http.Get, Http.Set_. rewrite <- Hk, lookup_insert_eq. reflexivity.
Qed.

End HeaderKeys.

(* ===================================================================== *)
(** * Further properties of the chain                                     *)
(* ===================================================================== *)

Section ChainMore.

Context {Cache URL : Type}.
Variable Abs : string -> option string.
Variable geoip2_Open : string -> OpenResult.

Local Abbreviation build := (@NewHandler Cache URL Abs geoip2_Open).

(** X16. When the filter is enabled and the database opens, the filter
    holds the reader [geoip2.Open] returned for the path that
    [FindGeoIP2Database] found, the default logger and the two lists of
    the options; it wraps the chain the same options give without filter
    and logging, sits directly under the logging layer when requests are
    logged and is outermost otherwise; one info record is written. *)
Theorem opened_database_installs_the_filter (o : @HandlerOptions Cache URL) (rd : Reader) :
  geoIP2Enabled o = true ->
  geoip2_Open (FindGeoIP2Database Abs) = OpenOk rd ->
  fst (build o)
  = (let f := GeoIPHandler
                (NewGeoIPMiddleware rd slog_Default (fst (build (innerOptions o)))
                   (opt_allowCountries o) (opt_blockCountries o)) in
     if logRequests o then NewLoggingMiddleware slog_Default f else f)
  /\ snd (build o)
     = [SlogInfo "Loaded GeoIP2 country database & GeoIP2 middleware for IP filtering." []]
  /\ snd (build (innerOptions o)) = [].
Proof.
  intros Hg Ho. unfold NewHandler.
  cbn [geoIP2Enabled innerOptions targetUrl badGatewayPage forwardHeaders cache
       maxCacheableResponseBody xSendfileEnabled gzipCompressionEnabled maxRequestBody
       logRequests opt_allowCountries opt_blockCountries].
  rewrite Hg, Ho. destruct (logRequests o); repeat split.
Qed.

Lemma findLoop_range (paths : list string) :
  findLoop Abs paths = EmptyString
  \/ exists p, In p paths /\ Abs p = Some (findLoop Abs paths).
Proof.
  induction paths as [| p paths IH]; cbn; [left; reflexivity |].
  destruct (Abs p) as [a |] eqn:Ha.
  - destruct (String.eqb_spec a EmptyString) as [-> | Hne]; cbn [negb].
    + destruct IH as [IH | (q & Hq & Hf)]; [left; exact IH |].
      right. exists q. split; [right; exact Hq | exact Hf].
    + right. exists p. split; [left; reflexivity | exact Ha].
  - destruct IH as [IH | (q & Hq & Hf)]; [left; exact IH |].
    right. exists q. split; [right; exact Hq | exact Hf].
Qed.

Lemma findLoop_empty_iff (paths : list string) :
  findLoop Abs paths = EmptyString
  <-> forall p, In p paths -> Abs p = None \/ Abs p = Some EmptyString.
Proof.
  induction paths as [| p paths IH]; cbn.
  - split; [intros _ q [] | reflexivity].
  - destruct (Abs p) as [a |] eqn:Ha.
    + destruct (String.eqb_spec a EmptyString) as [-> | Hne]; cbn [negb].
      * rewrite IH. split.
        -- intros Hall q [<- | Hq]; [right; exact Ha | apply Hall; exact Hq].
        -- intros Hall q Hq. apply Hall. right. exact Hq.
      * split.
        -- intros ->. exfalso. apply Hne. reflexivity.
        -- intros Hall. destruct (Hall p (or_introl eq_refl)) as [Hn | Hs]; congruence.
    + rewrite IH. split.
      * intros Hall q [<- | Hq]; [left; exact Ha | apply Hall; exact Hq].
      * intros Hall q Hq. apply Hall. right. exact Hq.
Qed.

(** X17. Whatever [filepath.Abs] does, the path found is empty or the
    resolution of one of the four candidates, and it is empty exactly
    when every candidate fails to resolve or resolves to the empty
    text. *)
Theorem found_path_is_a_resolved_candidate :
  (FindGeoIP2Database Abs = EmptyString
   \/ exists p, In p possiblePaths /\ Abs p = Some (FindGeoIP2Database Abs))
  /\ (FindGeoIP2Database Abs = EmptyString
      <-> forall p, In p possiblePaths -> Abs p = None \/ Abs p = Some EmptyString).
Proof. split; [apply findLoop_range | apply findLoop_empty_iff]. Qed.

End ChainMore.

(* ===================================================================== *)
(** * The further statements on concrete inputs                           *)
(* ===================================================================== *)

Lemma second_loopback_test_is_subsumed_witness :
  Net.Equal Net.IPv6loopback Net.IPv6loopback = true
  /\ Net.IsLoopback Net.IPv6loopback = true.
Proof.
  split; [reflexivity |].
  apply (second_loopback_test_is_subsumed Net.IPv6loopback). reflexivity.
Defined.

Lemma port_is_split_off_exactly_witness :
  NetAddr.SplitHostPort "[::1]:8080" = Some ("::1", "8080").
Proof.
  apply (proj2 (port_is_split_off_exactly "[::1]:8080" "::1" "8080")).
  right. repeat split.
Defined.

Lemma every_rejection_is_logged_witness :
  rejected (Examples.serve (Examples.filter (Examples.readerOf "GB") ["US"] [])
              Examples.fromPublic) = true
  /\ exists ip c msg key l,
       Examples.parseIPTable (clientHost Examples.fromPublic) = Some ip
       /\ reader (Examples.filter (Examples.readerOf "GB") ["US"] []) ip = CountryOk c
       /\ (msg = "Request blocked - country not in allow list" /\ key = "allowed_countries"
           /\ l = ["US"] /\ l <> []
           \/ msg = "Request blocked - country in block list" /\ key = "blocked_countries"
              /\ l = [] /\ ["US"] = [] /\ l <> [])
       /\ Examples.serve (Examples.filter (Examples.readerOf "GB") ["US"] [])
            Examples.fromPublic
          = [ReaderCountry ip;
             LoggerInfo slog_Default msg
               [("country", AStr c); ("ip", AStr (clientHost Examples.fromPublic));
                (key, AStrs l)];
             HttpError "Access denied" 403].
Proof.
  split; [reflexivity |].
  apply (proj2 (every_rejection_is_logged Examples.parseIPTable Examples.noRunes
                  (Examples.filter (Examples.readerOf "GB") ["US"] [])
                  Examples.fromPublic)).
  reflexivity.
Defined.

Lemma only_the_annotation_is_written_witness :
  In (NextServeHTTP "downstream" (withCountry Examples.fromPublic "US"))
     (Examples.serve (Examples.filter (Examples.readerOf "US") ["US"] []) Examples.fromPublic)
  /\ Http.RemoteAddr (withCountry Examples.fromPublic "US")
     = Http.RemoteAddr Examples.fromPublic.
Proof.
  assert (Hin : In (NextServeHTTP "downstream" (withCountry Examples.fromPublic "US"))
                  (Examples.serve (Examples.filter (Examples.readerOf "US") ["US"] [])
                     Examples.fromPublic))
    by (right; left; reflexivity).
  split; [exact Hin |].
  exact (proj1 (proj2 (only_the_annotation_is_written Examples.parseIPTable Examples.noRunes
                         (Examples.filter (Examples.readerOf "US") ["US"] [])
                         Examples.fromPublic (withCountry Examples.fromPublic "US")
                         "downstream" Hin))).
Defined.

Lemma annotation_read_downstream_witness :
  In (NextServeHTTP "downstream" (withCountry Examples.fromPublic "US"))
     (Examples.serve (Examples.filter (Examples.readerOf "US") ["US"] []) Examples.fromPublic)
  /\ Http.Get (Http.Header (withCountry Examples.fromPublic "US")) "X-GeoIP-Country" = "US".
Proof.
  assert (Hin : In (NextServeHTTP "downstream" (withCountry Examples.fromPublic "US"))
                  (Examples.serve (Examples.filter (Examples.readerOf "US") ["US"] [])
                     Examples.fromPublic))
    by (right; left; reflexivity).
  split; [exact Hin |].
  exact (annotation_read_downstream Examples.parseIPTable Examples.noRunes
           (Examples.filter (Examples.readerOf "US") ["US"] [])
           Examples.fromPublic (withCountry Examples.fromPublic "US") "downstream" Hin).
Defined.

Lemma filter_is_idempotent_witness :
  In (NextServeHTTP "downstream" (withCountry Examples.fromPublic "US"))
     (Examples.serve (Examples.filter (Examples.readerOf "US") ["US"] []) Examples.fromPublic)
  /\ Examples.serve (Examples.filter (Examples.readerOf "US") ["US"] [])
       (withCountry Examples.fromPublic "US")
     = Examples.serve (Examples.filter (Examples.readerOf "US") ["US"] []) Examples.fromPublic.
Proof.
  assert (Hin : In (NextServeHTTP "downstream" (withCountry Examples.fromPublic "US"))
                  (Examples.serve (Examples.filter (Examples.readerOf "US") ["US"] [])
                     Examples.fromPublic))
    by (right; left; reflexivity).
  split; [exact Hin |].
  exact (filter_is_idempotent Examples.parseIPTable Examples.noRunes
           (Examples.filter (Examples.readerOf "US") ["US"] [])
           Examples.fromPublic (withCountry Examples.fromPublic "US") "downstream" Hin).
Defined.

Lemma peer_is_ignored_behind_a_forwarding_header_witness :
  Http.Get (Http.Header Examples.viaBalancer) "X-Forwarded-For" <> EmptyString
  /\ clientHost (withRemoteAddr Examples.viaBalancer "198.51.100.7:443")
     = clientHost Examples.viaBalancer.
Proof.
  assert (Hne : Http.Get (Http.Header Examples.viaBalancer) "X-Forwarded-For" <> EmptyString)
    by discriminate.
  split; [exact Hne |].
  exact (proj1 (peer_is_ignored_behind_a_forwarding_header Examples.parseIPTable
                  Examples.noRunes (Examples.filter (Examples.readerOf "GB") ["US"] [])
                  Examples.viaBalancer "198.51.100.7:443" Hne)).
Defined.

Lemma forwarding_header_naming_a_local_address_passes_witness :
  hostOf "10.0.0.5" "10.0.0.5"
  /\ Examples.parseIPTable "10.0.0.5" = Some Examples.privateIP
  /\ isLocalOrInternalIP Examples.privateIP = true
  /\ Examples.serve (Examples.filter (Examples.readerOf "GB") ["US"] [])
       (withForwardedFor Examples.fromPublic "10.0.0.5")
     = [NextServeHTTP "downstream" (withForwardedFor Examples.fromPublic "10.0.0.5")].
Proof.
  assert (Hh : hostOf "10.0.0.5" "10.0.0.5") by (apply host_no_colon; reflexivity).
  split; [exact Hh |]. split; [reflexivity |]. split; [reflexivity |].
  apply (forwarding_header_naming_a_local_address_passes Examples.parseIPTable
           Examples.noRunes (Examples.filter (Examples.readerOf "GB") ["US"] [])
           Examples.fromPublic "10.0.0.5" "10.0.0.5" Examples.privateIP);
    [discriminate | exact Hh | reflexivity | reflexivity].
Defined.

Lemma lists_are_used_as_sets_witness :
  (forall x : string, In x ["US"; "CA"] <-> In x ["CA"; "US"; "US"])
  /\ rejected (Examples.serve
                 (withLists (Examples.filter (Examples.readerOf "GB") [] []) ["US"; "CA"] [])
                 Examples.fromPublic)
     = rejected (Examples.serve
                   (withLists (Examples.filter (Examples.readerOf "GB") [] [])
                      ["CA"; "US"; "US"] [])
                   Examples.fromPublic).
Proof.
  assert (Ha : forall x : string, In x ["US"; "CA"] <-> In x ["CA"; "US"; "US"])
    by (intros x; cbn; tauto).
  split; [exact Ha |].
  apply (lists_are_used_as_sets Examples.parseIPTable Examples.noRunes
           (Examples.filter (Examples.readerOf "GB") [] []) Examples.fromPublic
           ["US"; "CA"] ["CA"; "US"; "US"] [] [] Ha).
  intros x. tauto.
Defined.

Lemma EqualFold_on_ascii_text_witness :
  isASCII "us" = true /\ isASCII "US" = true
  /\ EqualFold Examples.noRunes "us" "US" = String.eqb (lowerASCII "us") (lowerASCII "US").
Proof.
  split; [reflexivity |]. split; [reflexivity |].
  apply (EqualFold_on_ascii_text Examples.noRunes "us" "US"); reflexivity.
Defined.

Lemma local_requests_read_200_witness :
  Examples.parseIPTable (clientHost Examples.fromPrivate) = Some Examples.privateIP
  /\ isLocalOrInternalIP Examples.privateIP = true
  /\ Http.Get (Http.Header Examples.fromPrivate) "X-GeoIP-Country" = EmptyString
  /\ Test.Code (Test.record (Examples.serve (Examples.filter Examples.readerFailing ["US"] [])
                               Examples.fromPrivate)) = 200%Z.
Proof.
  split; [reflexivity |]. split; [reflexivity |]. split; [reflexivity |].
  apply (local_requests_read_200 Examples.parseIPTable Examples.noRunes
           (Examples.filter Examples.readerFailing ["US"] []) Examples.fromPrivate
           Examples.privateIP); reflexivity.
Defined.

Lemma opened_database_installs_the_filter_witness :
  geoIP2Enabled (Examples.options true true true) = true
  /\ Examples.openWorks (FindGeoIP2Database (Examples.absIn "/app"))
     = OpenOk (Examples.readerOf "US")
  /\ snd (NewHandler (Examples.absIn "/app") Examples.openWorks
            (Examples.options true true true))
     = [SlogInfo "Loaded GeoIP2 country database & GeoIP2 middleware for IP filtering." []].
Proof.
  split; [reflexivity |]. split; [reflexivity |].
  apply (opened_database_installs_the_filter (Examples.absIn "/app") Examples.openWorks
           (Examples.options true true true) (Examples.readerOf "US")); reflexivity.
Defined.

Lemma case_of_the_lists_is_immaterial_witness :
  (forall ip c, reader (Examples.filter (Examples.readerOf "us") [] []) ip = CountryOk c ->
                isASCII c = true)
  /\ rejected (Examples.serve
                 (withLists (Examples.filter (Examples.readerOf "us") [] [])
                    (map lowerASCII ["US"]) (map lowerASCII []))
                 Examples.fromPublic)
     = rejected (Examples.serve
                   (withLists (Examples.filter (Examples.readerOf "us") [] []) ["US"] [])
                   Examples.fromPublic).
Proof.
  assert (Hrd : forall ip c,
             reader (Examples.filter (Examples.readerOf "us") [] []) ip = CountryOk c ->
             isASCII c = true)
    by (intros ip c Hc; injection Hc as <-; reflexivity).
  split; [exact Hrd |].
  apply (case_of_the_lists_is_immaterial Examples.parseIPTable Examples.noRunes
           (Examples.filter (Examples.readerOf "us") [] []) Examples.fromPublic ["US"] [] Hrd);
    reflexivity.
Defined.

Lemma header_written_is_read_in_any_case_witness :
  Http.allValid "X-GeoIP-Country" = true
  /\ lowerASCII "X-GeoIP-Country" = lowerASCII "x-geoip-country"
  /\ Http.Get (Http.Set_ ∅ "X-GeoIP-Country" "US") "x-geoip-country" = "US".
Proof.
  split; [reflexivity |]. split; [reflexivity |].
  apply (header_written_is_read_in_any_case ∅ "X-GeoIP-Country" "x-geoip-country" "US");
    reflexivity.
Defined.
